(** * vf_flip_nvcv: the CV-CUDA flip filter of libavfilter

    A shallow embedding of [libavfilter/vf_flip_nvcv.c].  The filter is glue
    code: every interesting effect is a call into the host (libavutil,
    libavfilter), the CUDA driver or the NVCV / CV-CUDA operator library.
    The embedding therefore keeps

    - a [World]: the part of the process state the filter touches (the CUDA
      context stack of the calling thread, the live [AVFrame]s and hardware
      frame contexts, device memory, the tensors and operators known to
      NVCV, the filter's private context, the output link) together with
      the chronological trace of external calls;
    - for every invocation of a callback, a record holding what each of its
      call sites gets back from the outside ([ConfigCalls], [FrameCalls]):
      the callbacks have no loops, so each call site runs at most once, and
      the records range over every behaviour of the outside world.

    The callbacks themselves are written in a state monad over [World]. *)

From Stdlib Require Import ZArith Lia List String Bool.
From stdpp Require Import base option list gmap strings.

Local Open Scope Z_scope.

(** ** Constants of the host headers *)

(** Modelled from the spec: the out-of-memory and the not-implemented
    error.  [AVERROR] is a macro of libavutil/error.h and the two codes come
    from errno.h, none of them under src/; the values are those of
    Linux, where [AVERROR(e)] is [-(e)]. *)
Definition ENOMEM : Z := 12.
Definition ENOSYS : Z := 38.
Definition AVERROR (e : Z) : Z := - e.

(** Status codes of the CUDA driver and of NVCV, as in cuda.h and
    nvcv/Status.h: zero is success. *)
Definition CUresult := Z.
Definition CUDA_SUCCESS : CUresult := 0.
Definition CUcontext := Z.
Definition CUstream := Z.

Definition NVCVStatus := Z.
Definition NVCV_SUCCESS : NVCVStatus := 0.

(** [int] is 32 bits wide; a product of two [int]s is computed in [int]. *)
Definition sint32 (z : Z) : Z := (z + 2 ^ 31) mod 2 ^ 32 - 2 ^ 31.
Definition int_mul (a b : Z) : Z := sint32 (a * b).

(** ** Pixel formats *)

(** [enum AVPixelFormat]: the values the file names, and all the others. *)
Inductive AVPixelFormat : Type :=
| AV_PIX_FMT_NONE
| AV_PIX_FMT_YUV420P
| AV_PIX_FMT_NV12
| AV_PIX_FMT_CUDA
| AV_PIX_FMT_RGB24
| AV_PIX_FMT_BGR24
| AV_PIX_FMT_0RGB32
| AV_PIX_FMT_0BGR32
| AV_PIX_FMT_RGBA
| AV_PIX_FMT_BGRA
| AV_PIX_FMT_other (n : Z).

#[global] Instance AVPixelFormat_eq_dec : EqDecision AVPixelFormat.
Proof. solve_decision. Defined.

(** [AVPixFmtDescriptor], the two members the filter reads:
    [flags] and [comp[0].step]. *)
Record AVPixFmtDescriptor : Type := {
  desc_flags : Z;
  desc_comp0_step : Z
}.

(** libavutil/pixdesc.h: [#define AV_PIX_FMT_FLAG_RGB (1 << 5)]. *)
Definition AV_PIX_FMT_FLAG_RGB : Z := Z.shiftl 1 5.

Definition supported_formats : list AVPixelFormat :=
  [ AV_PIX_FMT_RGB24;
    AV_PIX_FMT_BGR24;
    AV_PIX_FMT_0RGB32;
    AV_PIX_FMT_0BGR32;
    AV_PIX_FMT_RGBA;
    AV_PIX_FMT_BGRA ].

(** The [for] loop of [format_is_supported], over the remaining entries. *)
Fixpoint format_is_supported_from (l : list AVPixelFormat) (fmt : AVPixelFormat) : Z :=
  match l with
  | [] => 0
  | f :: l' => if decide (f = fmt) then 1 else format_is_supported_from l' fmt
  end.

Definition format_is_supported (fmt : AVPixelFormat) : Z :=
  format_is_supported_from supported_formats fmt.

(** ** Host data *)

(** [AVCUDADeviceContext]: the CUDA context and stream of a device. *)
Record AVCUDADeviceContext : Type := {
  cuda_ctx : CUcontext;
  cuda_stream : CUstream
}.

(** [AVHWFramesContext].  [hwfc_device_ref] is the address held by
    [device_ref]; [hwfc_hwctx] is [device_ctx->hwctx]. *)
Record AVHWFramesContext : Type := {
  hwfc_format : AVPixelFormat;
  hwfc_sw_format : AVPixelFormat;
  hwfc_width : Z;
  hwfc_height : Z;
  hwfc_device_ref : nat;
  hwfc_hwctx : AVCUDADeviceContext
}.

(** What [av_frame_copy_props] carries over: timestamps and side data. *)
Record FrameProps : Type := {
  pts : Z;
  pkt_dts : Z;
  side_data : list (Z * list Z)
}.

(** [AVFrame]: [fr_linesize0] is [linesize[0]], [fr_data0] is [data[0]]
    (a device address). *)
Record AVFrame : Type := {
  fr_width : Z;
  fr_height : Z;
  fr_linesize0 : Z;
  fr_data0 : Z;
  fr_props : FrameProps
}.

Definition no_props : FrameProps := {| pts := 0; pkt_dts := 0; side_data := [] |}.

(** The frame [av_frame_alloc] hands out: all fields cleared. *)
Definition blank_frame : AVFrame :=
  {| fr_width := 0; fr_height := 0; fr_linesize0 := 0; fr_data0 := 0;
     fr_props := no_props |}.

#[global] Instance AVFrame_inhabited : Inhabited AVFrame := populate blank_frame.

(** ** NVCV data *)

Inductive NVCVDataType : Type := NVCV_DATA_TYPE_NONE | NVCV_DATA_TYPE_U8.
Inductive NVCVTensorBufferType : Type :=
  NVCV_TENSOR_BUFFER_NONE | NVCV_TENSOR_BUFFER_STRIDED_CUDA.

(** An [NVCVTensorLayout] is identified by its label. *)
Definition NVCVTensorLayout := string.

(** nvcv/TensorLayout.h: [#define NVCV_TENSOR_MAX_RANK (15)]. *)
Definition NVCV_TENSOR_MAX_RANK : nat := 15.

(** [NVCVTensorData]; [td_strides] and [td_basePtr] are the members of
    [buffer.strided]. *)
Record NVCVTensorData : Type := {
  td_dtype : NVCVDataType;
  td_rank : Z;
  td_shape : list Z;
  td_bufferType : NVCVTensorBufferType;
  td_strides : list Z;
  td_basePtr : Z;
  td_layout : NVCVTensorLayout
}.

(** ** The filter's private context *)

Record FlipNvcvContext : Type := {
  frame_h : Z;
  frame_w : Z;
  in_fmt : AVPixelFormat;
  out_fmt : AVPixelFormat;
  hw_frames_ctx : option nat;
  flip_handle : Z;
  interpolation : Z;
  layout : NVCVTensorLayout;
  flip_code : Z
}.

(** ** External calls *)

Inductive LogMsg : Type :=
| Log_CUDA_error (e : CUresult) (line : Z)
| Log_NVCV_error (st : NVCVStatus) (line : Z)
| Log_unsupported_input (fmt : AVPixelFormat)
| Log_unsupported_output (fmt : AVPixelFormat).

(** One entry per call that leaves the file and acts on the outside, with
    its arguments and what came back.  The look-ups [av_pix_fmt_desc_get],
    [av_get_pix_fmt_name] and [cuGetErrorName] are not recorded. *)
Inductive Event : Type :=
| Ev_av_log (msg : LogMsg)
| Ev_cuCtxPushCurrent (c : CUcontext) (r : CUresult)
| Ev_cuCtxPopCurrent (r : CUresult)
| Ev_av_hwframe_ctx_alloc (device_ref : nat) (res : option nat)
| Ev_av_hwframe_ctx_init (ref : nat) (r : Z)
| Ev_av_buffer_unref (ref : nat)
| Ev_av_buffer_ref (ref : option nat) (res : option nat)
| Ev_cvcudaFlipCreate (max_batch : Z) (st : NVCVStatus) (handle : Z)
| Ev_nvcvTensorLayoutMake (descr : string) (st : NVCVStatus)
| Ev_av_frame_alloc (res : option nat)
| Ev_av_hwframe_get_buffer (pool : option nat) (frame : nat) (r : Z)
| Ev_nvcvTensorWrapDataConstruct (d : NVCVTensorData) (st : NVCVStatus) (handle : Z)
| Ev_cvcudaFlipSubmit (op : Z) (stream : CUstream) (tin tout : Z)
                      (code : Z) (st : NVCVStatus)
| Ev_av_frame_copy_props (dst src : nat) (r : Z)
| Ev_av_frame_free (frame : option nat)
| Ev_ff_filter_frame (frame : nat) (r : Z)
| Ev_nvcvOperatorDestroy (handle : Z).

(** ** The world *)

Record World : Type := {
  w_trace : list Event;
  w_cu_stack : list CUcontext;
  w_frames : gmap nat AVFrame;
  w_hwctx : gmap nat AVHWFramesContext;
  w_gpu : Z -> Z;
  w_tensors : gmap Z NVCVTensorData;
  w_ops : list Z;
  w_priv : FlipNvcvContext;
  w_outlink_hw_frames_ctx : option nat;
  w_forwarded : list (nat * AVFrame)
}.

(** [w_frames] holds the frames that are allocated, by address;
    [w_forwarded] lists, in order, the frames passed to the next filter;
    [w_ops] the operators NVCV has created and not destroyed. *)

Definition set_trace (f : list Event -> list Event) (w : World) : World :=
  {| w_trace := f (w_trace w); w_cu_stack := w_cu_stack w; w_frames := w_frames w;
     w_hwctx := w_hwctx w; w_gpu := w_gpu w; w_tensors := w_tensors w;
     w_ops := w_ops w; w_priv := w_priv w;
     w_outlink_hw_frames_ctx := w_outlink_hw_frames_ctx w;
     w_forwarded := w_forwarded w |}.

Definition set_cu_stack (f : list CUcontext -> list CUcontext) (w : World) : World :=
  {| w_trace := w_trace w; w_cu_stack := f (w_cu_stack w); w_frames := w_frames w;
     w_hwctx := w_hwctx w; w_gpu := w_gpu w; w_tensors := w_tensors w;
     w_ops := w_ops w; w_priv := w_priv w;
     w_outlink_hw_frames_ctx := w_outlink_hw_frames_ctx w;
     w_forwarded := w_forwarded w |}.

Definition set_frames (f : gmap nat AVFrame -> gmap nat AVFrame) (w : World) : World :=
  {| w_trace := w_trace w; w_cu_stack := w_cu_stack w; w_frames := f (w_frames w);
     w_hwctx := w_hwctx w; w_gpu := w_gpu w; w_tensors := w_tensors w;
     w_ops := w_ops w; w_priv := w_priv w;
     w_outlink_hw_frames_ctx := w_outlink_hw_frames_ctx w;
     w_forwarded := w_forwarded w |}.

Definition set_hwctx (f : gmap nat AVHWFramesContext -> gmap nat AVHWFramesContext)
    (w : World) : World :=
  {| w_trace := w_trace w; w_cu_stack := w_cu_stack w; w_frames := w_frames w;
     w_hwctx := f (w_hwctx w); w_gpu := w_gpu w; w_tensors := w_tensors w;
     w_ops := w_ops w; w_priv := w_priv w;
     w_outlink_hw_frames_ctx := w_outlink_hw_frames_ctx w;
     w_forwarded := w_forwarded w |}.

Definition set_gpu (f : (Z -> Z) -> Z -> Z) (w : World) : World :=
  {| w_trace := w_trace w; w_cu_stack := w_cu_stack w; w_frames := w_frames w;
     w_hwctx := w_hwctx w; w_gpu := f (w_gpu w); w_tensors := w_tensors w;
     w_ops := w_ops w; w_priv := w_priv w;
     w_outlink_hw_frames_ctx := w_outlink_hw_frames_ctx w;
     w_forwarded := w_forwarded w |}.

Definition set_tensors (f : gmap Z NVCVTensorData -> gmap Z NVCVTensorData)
    (w : World) : World :=
  {| w_trace := w_trace w; w_cu_stack := w_cu_stack w; w_frames := w_frames w;
     w_hwctx := w_hwctx w; w_gpu := w_gpu w; w_tensors := f (w_tensors w);
     w_ops := w_ops w; w_priv := w_priv w;
     w_outlink_hw_frames_ctx := w_outlink_hw_frames_ctx w;
     w_forwarded := w_forwarded w |}.

Definition set_ops (f : list Z -> list Z) (w : World) : World :=
  {| w_trace := w_trace w; w_cu_stack := w_cu_stack w; w_frames := w_frames w;
     w_hwctx := w_hwctx w; w_gpu := w_gpu w; w_tensors := w_tensors w;
     w_ops := f (w_ops w); w_priv := w_priv w;
     w_outlink_hw_frames_ctx := w_outlink_hw_frames_ctx w;
     w_forwarded := w_forwarded w |}.

Definition set_priv (f : FlipNvcvContext -> FlipNvcvContext) (w : World) : World :=
  {| w_trace := w_trace w; w_cu_stack := w_cu_stack w; w_frames := w_frames w;
     w_hwctx := w_hwctx w; w_gpu := w_gpu w; w_tensors := w_tensors w;
     w_ops := w_ops w; w_priv := f (w_priv w);
     w_outlink_hw_frames_ctx := w_outlink_hw_frames_ctx w;
     w_forwarded := w_forwarded w |}.

Definition set_outlink (r : option nat) (w : World) : World :=
  {| w_trace := w_trace w; w_cu_stack := w_cu_stack w; w_frames := w_frames w;
     w_hwctx := w_hwctx w; w_gpu := w_gpu w; w_tensors := w_tensors w;
     w_ops := w_ops w; w_priv := w_priv w;
     w_outlink_hw_frames_ctx := r;
     w_forwarded := w_forwarded w |}.

Definition set_forwarded (f : list (nat * AVFrame) -> list (nat * AVFrame))
    (w : World) : World :=
  {| w_trace := w_trace w; w_cu_stack := w_cu_stack w; w_frames := w_frames w;
     w_hwctx := w_hwctx w; w_gpu := w_gpu w; w_tensors := w_tensors w;
     w_ops := w_ops w; w_priv := w_priv w;
     w_outlink_hw_frames_ctx := w_outlink_hw_frames_ctx w;
     w_forwarded := f (w_forwarded w) |}.

(** ** The state monad of the callbacks *)

Definition M (A : Type) : Type := World -> A * World.

#[global] Instance M_ret : MRet M := fun A a w => (a, w).
#[global] Instance M_bind : MBind M :=
  fun A B k m w => let '(a, w') := m w in k a w'.

Definition get_world : M World := fun w => (w, w).
Definition modify (f : World -> World) : M unit := fun w => (tt, f w).
Definition emit (e : Event) : M unit := modify (set_trace (fun tr => tr ++ [e])).

Definition get_priv : M FlipNvcvContext := fun w => (w_priv w, w).
Definition get_frame (f : nat) : M AVFrame := fun w => (w_frames w !!! f, w).

(** ** Field assignments *)

Definition with_in_fmt (v : AVPixelFormat) (s : FlipNvcvContext) : FlipNvcvContext :=
  {| frame_h := frame_h s; frame_w := frame_w s; in_fmt := v; out_fmt := out_fmt s;
     hw_frames_ctx := hw_frames_ctx s; flip_handle := flip_handle s;
     interpolation := interpolation s; layout := layout s; flip_code := flip_code s |}.

Definition with_out_fmt (v : AVPixelFormat) (s : FlipNvcvContext) : FlipNvcvContext :=
  {| frame_h := frame_h s; frame_w := frame_w s; in_fmt := in_fmt s; out_fmt := v;
     hw_frames_ctx := hw_frames_ctx s; flip_handle := flip_handle s;
     interpolation := interpolation s; layout := layout s; flip_code := flip_code s |}.

Definition with_frame_w (v : Z) (s : FlipNvcvContext) : FlipNvcvContext :=
  {| frame_h := frame_h s; frame_w := v; in_fmt := in_fmt s; out_fmt := out_fmt s;
     hw_frames_ctx := hw_frames_ctx s; flip_handle := flip_handle s;
     interpolation := interpolation s; layout := layout s; flip_code := flip_code s |}.

Definition with_frame_h (v : Z) (s : FlipNvcvContext) : FlipNvcvContext :=
  {| frame_h := v; frame_w := frame_w s; in_fmt := in_fmt s; out_fmt := out_fmt s;
     hw_frames_ctx := hw_frames_ctx s; flip_handle := flip_handle s;
     interpolation := interpolation s; layout := layout s; flip_code := flip_code s |}.

Definition with_hw_frames_ctx (v : option nat) (s : FlipNvcvContext) : FlipNvcvContext :=
  {| frame_h := frame_h s; frame_w := frame_w s; in_fmt := in_fmt s; out_fmt := out_fmt s;
     hw_frames_ctx := v; flip_handle := flip_handle s;
     interpolation := interpolation s; layout := layout s; flip_code := flip_code s |}.

Definition with_flip_handle (v : Z) (s : FlipNvcvContext) : FlipNvcvContext :=
  {| frame_h := frame_h s; frame_w := frame_w s; in_fmt := in_fmt s; out_fmt := out_fmt s;
     hw_frames_ctx := hw_frames_ctx s; flip_handle := v;
     interpolation := interpolation s; layout := layout s; flip_code := flip_code s |}.

Definition with_layout (v : NVCVTensorLayout) (s : FlipNvcvContext) : FlipNvcvContext :=
  {| frame_h := frame_h s; frame_w := frame_w s; in_fmt := in_fmt s; out_fmt := out_fmt s;
     hw_frames_ctx := hw_frames_ctx s; flip_handle := flip_handle s;
     interpolation := interpolation s; layout := v; flip_code := flip_code s |}.

Definition with_hwfc_format (v : AVPixelFormat) (c : AVHWFramesContext) : AVHWFramesContext :=
  {| hwfc_format := v; hwfc_sw_format := hwfc_sw_format c; hwfc_width := hwfc_width c;
     hwfc_height := hwfc_height c; hwfc_device_ref := hwfc_device_ref c;
     hwfc_hwctx := hwfc_hwctx c |}.

Definition with_hwfc_sw_format (v : AVPixelFormat) (c : AVHWFramesContext) : AVHWFramesContext :=
  {| hwfc_format := hwfc_format c; hwfc_sw_format := v; hwfc_width := hwfc_width c;
     hwfc_height := hwfc_height c; hwfc_device_ref := hwfc_device_ref c;
     hwfc_hwctx := hwfc_hwctx c |}.

Definition with_hwfc_width (v : Z) (c : AVHWFramesContext) : AVHWFramesContext :=
  {| hwfc_format := hwfc_format c; hwfc_sw_format := hwfc_sw_format c; hwfc_width := v;
     hwfc_height := hwfc_height c; hwfc_device_ref := hwfc_device_ref c;
     hwfc_hwctx := hwfc_hwctx c |}.

Definition with_hwfc_height (v : Z) (c : AVHWFramesContext) : AVHWFramesContext :=
  {| hwfc_format := hwfc_format c; hwfc_sw_format := hwfc_sw_format c;
     hwfc_width := hwfc_width c; hwfc_height := v;
     hwfc_device_ref := hwfc_device_ref c; hwfc_hwctx := hwfc_hwctx c |}.

Definition with_props (p : FrameProps) (f : AVFrame) : AVFrame :=
  {| fr_width := fr_width f; fr_height := fr_height f; fr_linesize0 := fr_linesize0 f;
     fr_data0 := fr_data0 f; fr_props := p |}.

Definition with_shape (i : nat) (v : Z) (d : NVCVTensorData) : NVCVTensorData :=
  {| td_dtype := td_dtype d; td_rank := td_rank d; td_shape := <[i:=v]> (td_shape d);
     td_bufferType := td_bufferType d; td_strides := td_strides d;
     td_basePtr := td_basePtr d; td_layout := td_layout d |}.

Definition with_stride (i : nat) (v : Z) (d : NVCVTensorData) : NVCVTensorData :=
  {| td_dtype := td_dtype d; td_rank := td_rank d; td_shape := td_shape d;
     td_bufferType := td_bufferType d; td_strides := <[i:=v]> (td_strides d);
     td_basePtr := td_basePtr d; td_layout := td_layout d |}.

Definition with_basePtr (v : Z) (d : NVCVTensorData) : NVCVTensorData :=
  {| td_dtype := td_dtype d; td_rank := td_rank d; td_shape := td_shape d;
     td_bufferType := td_bufferType d; td_strides := td_strides d;
     td_basePtr := v; td_layout := td_layout d |}.

Definition with_td_layout (v : NVCVTensorLayout) (d : NVCVTensorData) : NVCVTensorData :=
  {| td_dtype := td_dtype d; td_rank := td_rank d; td_shape := td_shape d;
     td_bufferType := td_bufferType d; td_strides := td_strides d;
     td_basePtr := td_basePtr d; td_layout := v |}.

(** ** Device memory seen through a tensor *)

Definition dim (d : NVCVTensorData) (i : nat) : Z := td_shape d !!! i.
Definition stride (d : NVCVTensorData) (i : nat) : Z := td_strides d !!! i.

(** Address of element (0, r, c, k) of a rank-4 strided tensor. *)
Definition tensor_addr (d : NVCVTensorData) (r c k : Z) : Z :=
  td_basePtr d + r * stride d 1 + c * stride d 2 + k * stride d 3.

Definition tensor_indices (d : NVCVTensorData) : list (Z * Z * Z) :=
  r ← seqZ 0 (dim d 1); c ← seqZ 0 (dim d 2); k ← seqZ 0 (dim d 3); [(r, c, k)].

Definition store (mem : Z -> Z) (a v : Z) : Z -> Z :=
  fun x => if decide (x = a) then v else mem x.

(** Modelled from the spec: the flip itself runs inside the CV-CUDA library,
    which is not part of the file.  Section 8 of the spec fixes it: for code
    0 the pixel of row r becomes row height-1-r, for code 1 the pixel of
    column c becomes column width-1-c, for code -1 both; the channel bytes of
    a pixel keep their order. *)
Definition flip_row (code h r : Z) : Z :=
  if decide (code = 0 \/ code = -1) then h - 1 - r else r.
Definition flip_col (code w c : Z) : Z :=
  if decide (code = 1 \/ code = -1) then w - 1 - c else c.

(** Modelled from the spec: what a successful flip leaves in device memory:
    every element of the output tensor receives the element of the input
    tensor at the mirrored position, read from memory as it was at
    submission. *)
Definition cvcuda_flip (mem : Z -> Z) (din dout : NVCVTensorData) (code : Z) : Z -> Z :=
  foldl (fun m '(r, c, k) =>
           store m (tensor_addr dout r c k)
                 (mem (tensor_addr din (flip_row code (dim dout 1) r)
                                       (flip_col code (dim dout 2) c) k)))
        mem (tensor_indices dout).

(** ** The calls that leave the file *)

Definition av_log (msg : LogMsg) : M unit := emit (Ev_av_log msg).

(** Modelled from the spec: the CUDA driver is not part of the file.
    [cuCtxPushCurrent] pushes the device context on the GPU context stack
    of the calling thread; a failed call pushes nothing. *)
Definition cuCtxPushCurrent (resp : CUresult) (c : CUcontext) : M CUresult :=
  emit (Ev_cuCtxPushCurrent c resp);;
  (if decide (resp = CUDA_SUCCESS) then modify (set_cu_stack (cons c)) else mret tt);;
  mret resp.

(** Modelled from the spec: [cuCtxPopCurrent] removes the top of the GPU
    context stack; a failed call removes nothing. *)
Definition cuCtxPopCurrent (resp : CUresult) : M CUresult :=
  emit (Ev_cuCtxPopCurrent resp);;
  (if decide (resp = CUDA_SUCCESS) then modify (set_cu_stack (@tl CUcontext)) else mret tt);;
  mret resp.

(** Modelled from the spec: [av_hwframe_ctx_alloc] (libavutil/hwcontext.c,
    not under src/) derives a hardware-frames context from the device
    context: NULL, or a new context on that device with no format and no
    size yet. *)
Definition av_hwframe_ctx_alloc (resp : option nat) (device_ref : nat)
    (hwctx : AVCUDADeviceContext) : M (option nat) :=
  emit (Ev_av_hwframe_ctx_alloc device_ref resp);;
  match resp with
  | Some a =>
      modify (set_hwctx (insert a
        {| hwfc_format := AV_PIX_FMT_NONE; hwfc_sw_format := AV_PIX_FMT_NONE;
           hwfc_width := 0; hwfc_height := 0;
           hwfc_device_ref := device_ref; hwfc_hwctx := hwctx |}))
  | None => mret tt
  end;;
  mret resp.

(** Modelled from the spec: [av_hwframe_ctx_init] (libavutil/hwcontext.c)
    builds the frame pool of the context and reports an error or not; the
    fields the filter has set stay as they are. *)
Definition av_hwframe_ctx_init (resp : Z) (ref : nat) : M Z :=
  emit (Ev_av_hwframe_ctx_init ref resp);; mret resp.

(** Modelled from the spec: [av_buffer_unref(&ref)] (libavutil/buffer.c)
    drops the only reference to the context, which is freed. *)
Definition av_buffer_unref (ref : nat) : M unit :=
  emit (Ev_av_buffer_unref ref);; modify (set_hwctx (delete ref)).

(** Modelled from the spec: [av_buffer_ref] (libavutil/buffer.c) answers
    NULL or a new reference to the same buffer. *)
Definition av_buffer_ref (resp : bool) (ref : option nat) : M (option nat) :=
  let res := if resp then ref else None in
  emit (Ev_av_buffer_ref ref res);; mret res.

(** Modelled from the spec: the operator library is not part of the file.
    [cvcudaFlipCreate(&s->flip_handle, max_batch)] creates the operator; on
    success its handle is stored through the pointer, on failure nothing
    is. *)
Definition cvcudaFlipCreate (resp : NVCVStatus * Z) (max_batch : Z) : M NVCVStatus :=
  emit (Ev_cvcudaFlipCreate max_batch resp.1 resp.2);;
  (if decide (resp.1 = NVCV_SUCCESS)
   then modify (set_priv (with_flip_handle resp.2));;
        modify (set_ops (cons resp.2))
   else mret tt);;
  mret resp.1.

(** Modelled from the spec: [nvcvTensorLayoutMake(descr, &s->layout)]
    constructs the layout descriptor named by [descr]. *)
Definition nvcvTensorLayoutMake (resp : NVCVStatus) (descr : string) : M NVCVStatus :=
  emit (Ev_nvcvTensorLayoutMake descr resp);;
  (if decide (resp = NVCV_SUCCESS) then modify (set_priv (with_layout descr)) else mret tt);;
  mret resp.

(** Modelled from the spec: [av_frame_alloc] (libavutil/frame.c) allocates
    a new frame: NULL, or a frame with its fields cleared. *)
Definition av_frame_alloc (resp : option nat) : M (option nat) :=
  emit (Ev_av_frame_alloc resp);;
  match resp with
  | Some a => modify (set_frames (insert a blank_frame))
  | None => mret tt
  end;;
  mret resp.

(** Modelled from the spec: [av_hwframe_get_buffer(pool, frame, 0)]
    (libavutil/hwcontext.c) takes a buffer from the output frame pool; on
    success the frame has the geometry and the device address the pool
    gave it. *)
Definition av_hwframe_get_buffer (resp : Z * AVFrame) (pool : option nat) (frame : nat)
    : M Z :=
  emit (Ev_av_hwframe_get_buffer pool frame resp.1);;
  (if decide (resp.1 < 0) then mret tt
   else modify (set_frames (insert frame resp.2)));;
  mret resp.1.

(** Modelled from the spec: [nvcvTensorWrapDataConstruct(&data, NULL, NULL,
    &handle)] wraps existing memory: on success a tensor viewing the
    described memory exists and [handle] names it; on failure [handle]
    keeps the value it had. *)
Definition nvcvTensorWrapDataConstruct (resp : NVCVStatus * Z) (d : NVCVTensorData)
    (handle : Z) : M (NVCVStatus * Z) :=
  emit (Ev_nvcvTensorWrapDataConstruct d resp.1 resp.2);;
  if decide (resp.1 = NVCV_SUCCESS)
  then modify (set_tensors (insert resp.2 d));; mret (resp.1, resp.2)
  else mret (resp.1, handle).

(** Modelled from the spec: [cvcudaFlipSubmit] queues the flip of the input
    tensor into the output tensor on the stream.  Work queued later on the
    stream sees its effect, which the model applies at submission; a
    refused submission, or one whose handles name no tensor, changes
    nothing. *)
Definition cvcudaFlipSubmit (resp : NVCVStatus) (op : Z) (stream : CUstream)
    (tin tout : Z) (code : Z) : M NVCVStatus :=
  emit (Ev_cvcudaFlipSubmit op stream tin tout code resp);;
  w ← get_world;
  match w_tensors w !! tin, w_tensors w !! tout with
  | Some din, Some dout =>
      if decide (resp = NVCV_SUCCESS)
      then modify (set_gpu (fun mem => cvcuda_flip mem din dout code))
      else mret tt
  | _, _ => mret tt
  end;;
  mret resp.

(** Modelled from the spec: [av_frame_copy_props] (libavutil/frame.c) copies
    the frame metadata (timestamps, side data) from the source frame to the
    destination frame. *)
Definition av_frame_copy_props (resp : Z) (dst src : nat) : M Z :=
  emit (Ev_av_frame_copy_props dst src resp);;
  src_frame ← get_frame src;
  (if decide (resp < 0) then mret tt
   else modify (set_frames (alter (with_props (fr_props src_frame)) dst)));;
  mret resp.

(** Modelled from the spec: [av_frame_free(&frame)] (libavutil/frame.c)
    releases the frame; a NULL frame is left alone. *)
Definition av_frame_free (frame : option nat) : M unit :=
  emit (Ev_av_frame_free frame);;
  match frame with
  | Some a => modify (set_frames (delete a))
  | None => mret tt
  end.

(** Modelled from the spec: [ff_filter_frame(outlink, frame)]
    (libavfilter/avfilter.c) forwards the frame downstream: the frame, as
    it is now, is handed to the next filter, which owns it from here
    on. *)
Definition ff_filter_frame (resp : Z) (frame : nat) : M Z :=
  f ← get_frame frame;
  emit (Ev_ff_filter_frame frame resp);;
  modify (set_forwarded (fun q => q ++ [(frame, f)]));;
  mret resp.

(** Modelled from the spec: [nvcvOperatorDestroy] destroys the operator
    the handle names. *)
Definition nvcvOperatorDestroy (handle : Z) : M unit :=
  emit (Ev_nvcvOperatorDestroy handle);;
  modify (set_ops (filter (fun h => h <> handle))).

(** ** The checking helper and the macros of the file *)

(** [check_cu]: logs a driver error (under the name [cuGetErrorName] gives
    it) and answers 0, answers 1 otherwise. *)
Definition check_cu (e : CUresult) (iLine : Z) : M Z :=
  if decide (e <> CUDA_SUCCESS)
  then av_log (Log_CUDA_error e iLine);; mret 0
  else mret 1.

(** [#define CHECK_CU(x) check_cu(x, ctx, __LINE__, __FILE__)]. *)
Definition CHECK_CU (line : Z) (x : M CUresult) : M Z :=
  e ← x; check_cu e line.

(** [#define CK_NVCV(ret) if (ret != NVCV_SUCCESS) av_log(ctx, ..., ret, __LINE__);]

    The macro names its parameter twice, so its argument is evaluated once
    in the test and, when the test holds, once more as the argument of
    [av_log]: [x] is the first evaluation and [x_again] the second. *)
Definition CK_NVCV (line : Z) (x x_again : M NVCVStatus) : M unit :=
  st ← x;
  if decide (st <> NVCV_SUCCESS)
  then st' ← x_again; av_log (Log_NVCV_error st' line)
  else mret tt.

(** [CK_NVCV(ret = call)], as the per-frame path writes it, expands to

      [if (ret = call != NVCV_SUCCESS) av_log(ctx, ..., ret = call, __LINE__);]

    [!=] binds tighter than [=]: the test stores the truth value of the
    comparison in [ret]; when it is non-zero the call runs again and its
    status is stored in [ret] and logged.  [l] carries the local variable
    the call writes through a pointer.  The result is the final [ret].
    [line] is [__LINE__], taken as the line where the invocation starts. *)
Definition CK_NVCV_ret {L : Type} (line : Z) (call call_again : L -> M (NVCVStatus * L))
    (l : L) : M (Z * L) :=
  '(st, l) ← call l;
  let ret := if decide (st <> NVCV_SUCCESS) then 1 else 0 in
  if decide (ret <> 0)
  then '(st', l) ← call_again l;
       let ret := st' in
       av_log (Log_NVCV_error ret line);;
       mret (ret, l)
  else mret (ret, l).

(** ** What the outside answers during one callback *)

Record ConfigCalls : Type := {
  c_cuCtxPushCurrent : CUresult;
  c_av_hwframe_ctx_alloc : option nat;
  c_av_hwframe_ctx_init : Z;
  c_av_buffer_ref : bool;
  c_cuCtxPopCurrent : CUresult;
  c_cvcudaFlipCreate : NVCVStatus * Z;
  c_cvcudaFlipCreate_again : NVCVStatus * Z;
  c_nvcvTensorLayoutMake : NVCVStatus;
  c_nvcvTensorLayoutMake_again : NVCVStatus
}.

(** [f_cv_in_handle] and [f_cv_out_handle] are not answers: they are what
    the locals [cv_in_handle] and [cv_out_handle] hold when [filter_frame]
    starts.  Line 196 declares them without an initialiser, so they hold
    whatever the stack held: any value, and possibly the handle of a tensor
    of an earlier frame. *)
Record FrameCalls : Type := {
  f_cv_in_handle : Z;
  f_cv_out_handle : Z;
  f_av_frame_alloc : option nat;
  f_cuCtxPushCurrent : CUresult;
  f_av_hwframe_get_buffer : Z * AVFrame;
  f_wrap_in : NVCVStatus * Z;
  f_wrap_in_again : NVCVStatus * Z;
  f_wrap_out : NVCVStatus * Z;
  f_wrap_out_again : NVCVStatus * Z;
  f_cvcudaFlipSubmit : NVCVStatus;
  f_cvcudaFlipSubmit_again : NVCVStatus;
  f_cuCtxPopCurrent : CUresult;
  f_av_frame_copy_props : Z;
  f_ff_filter_frame : Z
}.

(** ** The callbacks *)

Section Callbacks.

(** [av_pix_fmt_desc_get], the descriptor table of libavutil/pixdesc.c,
    which is not under src/: the callbacks are stated for any table. *)
Variable av_pix_fmt_desc_get : AVPixelFormat -> AVPixFmtDescriptor.

Definition config_props (k : ConfigCalls) (in_frame_ctx : AVHWFramesContext) : M Z :=
  let hw_device_ref := hwfc_device_ref in_frame_ctx in
  let hw_ctx := hwfc_hwctx in_frame_ctx in
  CHECK_CU 135 (cuCtxPushCurrent (c_cuCtxPushCurrent k) (cuda_ctx hw_ctx));;
  out_ref ← av_hwframe_ctx_alloc (c_av_hwframe_ctx_alloc k) hw_device_ref hw_ctx;
  match out_ref with
  | None => mret (AVERROR ENOMEM)
  | Some out_ref =>
      let out_ctx := out_ref in
      modify (set_priv (with_in_fmt (hwfc_sw_format in_frame_ctx)));;
      modify (set_priv (fun s => with_out_fmt (in_fmt s) s));;
      s ← get_priv;
      modify (set_hwctx (alter (with_hwfc_format AV_PIX_FMT_CUDA) out_ctx));;
      modify (set_hwctx (alter (with_hwfc_sw_format (out_fmt s)) out_ctx));;
      modify (set_hwctx (alter (with_hwfc_width (hwfc_width in_frame_ctx)) out_ctx));;
      modify (set_hwctx (alter (with_hwfc_height (hwfc_height in_frame_ctx)) out_ctx));;
      if decide (format_is_supported (in_fmt s) = 0)
      then av_log (Log_unsupported_input (in_fmt s));;
           mret (AVERROR ENOSYS)
      else
      if decide (format_is_supported (out_fmt s) = 0)
      then av_log (Log_unsupported_output (out_fmt s));;
           mret (AVERROR ENOSYS)
      else
        modify (set_priv (with_frame_w (hwfc_width in_frame_ctx)));;
        modify (set_priv (with_frame_h (hwfc_height in_frame_ctx)));;
        ret ← av_hwframe_ctx_init (c_av_hwframe_ctx_init k) out_ref;
        if decide (ret < 0)
        then av_buffer_unref out_ref;;
             mret ret
        else
          modify (set_priv (with_hw_frames_ctx (Some out_ref)));;
          s ← get_priv;
          ref ← av_buffer_ref (c_av_buffer_ref k) (hw_frames_ctx s);
          modify (set_outlink ref);;
          match ref with
          | None => mret (AVERROR ENOMEM)
          | Some _ =>
              CHECK_CU 175 (cuCtxPopCurrent (c_cuCtxPopCurrent k));;
              CK_NVCV 177 (cvcudaFlipCreate (c_cvcudaFlipCreate k) 1)
                          (cvcudaFlipCreate (c_cvcudaFlipCreate_again k) 1);;
              CK_NVCV 178 (nvcvTensorLayoutMake (c_nvcvTensorLayoutMake k) "NHWC")
                          (nvcvTensorLayoutMake (c_nvcvTensorLayoutMake_again k) "NHWC");;
              mret 0
          end
  end.

(** The initialisers of [cv_in_data] and [cv_out_data]: the members not
    named are zero. *)
Definition cv_data_init : NVCVTensorData :=
  {| td_dtype := NVCV_DATA_TYPE_U8;
     td_rank := 4;
     td_shape := replicate NVCV_TENSOR_MAX_RANK 0;
     td_bufferType := NVCV_TENSOR_BUFFER_STRIDED_CUDA;
     td_strides := replicate NVCV_TENSOR_MAX_RANK 0;
     td_basePtr := 0;
     td_layout := "" |}.

(** The assignments of lines 227-236 (lines 238-247 for the output). *)
Definition fill_tensor_data (frame : AVFrame) (desc : AVPixFmtDescriptor)
    (cv_layout : NVCVTensorLayout) (d : NVCVTensorData) : NVCVTensorData :=
  let d := with_shape 0 1 d in
  let d := with_shape 1 (fr_height frame) d in
  let d := with_shape 2 (fr_width frame) d in
  let d := with_shape 3 (desc_comp0_step desc) d in
  let d := with_stride 0 (int_mul (fr_height frame) (fr_linesize0 frame)) d in
  let d := with_stride 1 (fr_linesize0 frame) d in
  let d := with_stride 2 (desc_comp0_step desc) d in
  let d := with_stride 3 1 d in
  let d := with_basePtr (fr_data0 frame) d in
  with_td_layout cv_layout d.

(** The code after the label [fail]. *)
Definition fail (in_ : nat) (out : option nat) (ret : Z) : M Z :=
  av_frame_free (Some in_);;
  av_frame_free out;;
  mret ret.

(** The block of lines 226-253, entered when the source format has the RGB
    flag: describe both frames as tensors, wrap them, submit the flip.  The
    result is the value the block leaves in [ret].  The two handles are the
    locals of line 196, which nothing has written when the block starts. *)
Definition nvcv_operation (k : FrameCalls) (s : FlipNvcvContext) (stream : CUstream)
    (desc_src desc_dst : AVPixFmtDescriptor) (in_ out : nat) : M Z :=
  let cv_in_handle := f_cv_in_handle k in
  let cv_out_handle := f_cv_out_handle k in
  let cv_layout := layout s in
  let cv_in_data := cv_data_init in
  let cv_out_data := cv_data_init in
  in_frame ← get_frame in_;
  out_frame ← get_frame out;
  let cv_in_data := fill_tensor_data in_frame desc_src cv_layout cv_in_data in
  let cv_out_data := fill_tensor_data out_frame desc_dst cv_layout cv_out_data in
  '(ret, cv_in_handle) ←
     CK_NVCV_ret 249
       (nvcvTensorWrapDataConstruct (f_wrap_in k) cv_in_data)
       (nvcvTensorWrapDataConstruct (f_wrap_in_again k) cv_in_data)
       cv_in_handle;
  '(ret, cv_out_handle) ←
     CK_NVCV_ret 250
       (nvcvTensorWrapDataConstruct (f_wrap_out k) cv_out_data)
       (nvcvTensorWrapDataConstruct (f_wrap_out_again k) cv_out_data)
       cv_out_handle;
  '(ret, _) ←
     CK_NVCV_ret 251
       (fun _ : unit =>
          st ← cvcudaFlipSubmit (f_cvcudaFlipSubmit k) (flip_handle s) stream
                 cv_in_handle cv_out_handle (flip_code s);
          mret (st, tt))
       (fun _ : unit =>
          st ← cvcudaFlipSubmit (f_cvcudaFlipSubmit_again k) (flip_handle s) stream
                 cv_in_handle cv_out_handle (flip_code s);
          mret (st, tt))
       tt;
  mret ret.

Definition filter_frame (k : FrameCalls) (frames_ctx : AVHWFramesContext) (in_ : nat)
    : M Z :=
  s ← get_priv;
  let hw_ctx := hwfc_hwctx frames_ctx in
  let stream := cuda_stream hw_ctx in
  let desc_src := av_pix_fmt_desc_get (in_fmt s) in
  let desc_dst := av_pix_fmt_desc_get (out_fmt s) in
  out ← av_frame_alloc (f_av_frame_alloc k);
  match out with
  | None => fail in_ None (AVERROR ENOMEM)
  | Some out =>
      CHECK_CU 219 (cuCtxPushCurrent (f_cuCtxPushCurrent k) (cuda_ctx hw_ctx));;
      ret ← av_hwframe_get_buffer (f_av_hwframe_get_buffer k) (hw_frames_ctx s) out;
      if decide (ret < 0) then fail in_ (Some out) ret
      else
        (if decide (Z.land (desc_flags desc_src) AV_PIX_FMT_FLAG_RGB <> 0)
         then nvcv_operation k s stream desc_src desc_dst in_ out
         else mret ret);;
        CHECK_CU 255 (cuCtxPopCurrent (f_cuCtxPopCurrent k));;
        ret ← av_frame_copy_props (f_av_frame_copy_props k) out in_;
        if decide (ret < 0) then fail in_ (Some out) ret
        else
          av_frame_free (Some in_);;
          ff_filter_frame (f_ff_filter_frame k) out
  end.

Definition uninit : M unit :=
  s ← get_priv;
  nvcvOperatorDestroy (flip_handle s).

(** ** The life of one filter instance

    The host configures the output link, then hands over the frames one at
    a time, then tears the instance down; when configuration fails no frame
    is processed.  Every frame comes with its own [FrameCalls]. *)
Fixpoint filter_frames (frames_ctx : AVHWFramesContext)
    (frames : list (FrameCalls * nat)) : M (list Z) :=
  match frames with
  | [] => mret []
  | (k, in_) :: rest =>
      r ← filter_frame k frames_ctx in_;
      rs ← filter_frames frames_ctx rest;
      mret (r :: rs)
  end.

Definition lifecycle (kc : ConfigCalls) (in_frame_ctx : AVHWFramesContext)
    (frames : list (FrameCalls * nat)) : M (Z * list Z) :=
  r ← config_props kc in_frame_ctx;
  rs ← (if decide (r < 0) then mret [] else filter_frames in_frame_ctx frames);
  uninit;;
  mret (r, rs).

End Callbacks.

(** * Properties *)

(** ** Reading the trace *)

(** The events a callback added when it took the world from [w] to [w']. *)
Definition new_events (w w' : World) : list Event :=
  drop (length (w_trace w)) (w_trace w').

Definition is_create (e : Event) : bool :=
  match e with Ev_cvcudaFlipCreate _ _ _ => true | _ => false end.
Definition is_destroy (e : Event) : bool :=
  match e with Ev_nvcvOperatorDestroy _ => true | _ => false end.
Definition is_wrap (e : Event) : bool :=
  match e with Ev_nvcvTensorWrapDataConstruct _ _ _ => true | _ => false end.
Definition is_submit (e : Event) : bool :=
  match e with Ev_cvcudaFlipSubmit _ _ _ _ _ _ => true | _ => false end.
Definition is_pop (e : Event) : bool :=
  match e with Ev_cuCtxPopCurrent _ => true | _ => false end.
Definition is_frame_alloc (e : Event) : bool :=
  match e with
  | Ev_av_frame_alloc _ | Ev_av_hwframe_get_buffer _ _ _ => true
  | _ => false
  end.

(** Work handed to the GPU operator library, or an output frame. *)
Definition is_gpu_work (e : Event) : bool :=
  is_create e || is_wrap e || is_submit e || is_frame_alloc e.

Definition count (p : Event -> bool) (tr : list Event) : nat :=
  length (List.filter p tr).

(** ** Vocabulary of the statements *)

(** [appends P m]: running [m] only adds events, all of them in [P]. *)
Definition appends (P : Event -> Prop) {A : Type} (m : M A) : Prop :=
  forall w, exists evs, w_trace (m w).2 = w_trace w ++ evs /\ Forall P evs.

(** [keeps proj m]: running [m] leaves the component [proj] of the world as
    it was. *)
Definition keeps {X A : Type} (proj : World -> X) (m : M A) : Prop :=
  forall w, proj (m w).2 = proj w.

(** The block talks to NVCV only: tensor constructions, submissions, and
    the log lines of [CK_NVCV]. *)
Definition is_nvcv_call (e : Event) : bool :=
  match e with
  | Ev_nvcvTensorWrapDataConstruct _ _ _
  | Ev_cvcudaFlipSubmit _ _ _ _ _ _
  | Ev_av_log (Log_NVCV_error _ _) => true
  | _ => false
  end.

(** The view the specification describes, as a descriptor: a rank-4 tensor of
    bytes over the frame's first plane, of shape (1, height, width, step)
    and strides (height * linesize, linesize, step, 1), in layout NHWC.
    The unused entries of the two arrays are zero. *)
Definition nhwc_view (f : AVFrame) (step : Z) : NVCVTensorData :=
  {| td_dtype := NVCV_DATA_TYPE_U8;
     td_rank := 4;
     td_shape := [1; fr_height f; fr_width f; step] ++ replicate 11 0;
     td_bufferType := NVCV_TENSOR_BUFFER_STRIDED_CUDA;
     td_strides := [fr_height f * fr_linesize0 f; fr_linesize0 f; step; 1]
                   ++ replicate 11 0;
     td_basePtr := fr_data0 f;
     td_layout := "NHWC" |}.




(** What [filter_frame] returns, read off the answers of the host calls
    alone: the statuses of the NVCV calls do not occur in it. *)
Definition host_result (k : FrameCalls) : Z :=
  match f_av_frame_alloc k with
  | None => AVERROR ENOMEM
  | Some _ =>
      if decide ((f_av_hwframe_get_buffer k).1 < 0) then (f_av_hwframe_get_buffer k).1
      else if decide (f_av_frame_copy_props k < 0) then f_av_frame_copy_props k
      else f_ff_filter_frame k
  end.


(** ** Concrete inputs *)

Module Sample.

(** A descriptor table: for the formats the file names, the flags (RGB is
    32, alpha 128, planar 16) and the step of the first component that
    libavutil/pixdesc.c gives them. *)
Definition pixdesc (fmt : AVPixelFormat) : AVPixFmtDescriptor :=
  match fmt with
  | AV_PIX_FMT_RGB24 | AV_PIX_FMT_BGR24 => {| desc_flags := 32; desc_comp0_step := 3 |}
  | AV_PIX_FMT_0RGB32 | AV_PIX_FMT_0BGR32 => {| desc_flags := 32; desc_comp0_step := 4 |}
  | AV_PIX_FMT_RGBA | AV_PIX_FMT_BGRA => {| desc_flags := 160; desc_comp0_step := 4 |}
  | AV_PIX_FMT_YUV420P | AV_PIX_FMT_NV12 => {| desc_flags := 16; desc_comp0_step := 1 |}
  | _ => {| desc_flags := 0; desc_comp0_step := 0 |}
  end.

(** The private context as the host allocates it: zeroed, then the option
    [code] set. *)
Definition priv0 (code : Z) : FlipNvcvContext :=
  {| frame_h := 0; frame_w := 0; in_fmt := AV_PIX_FMT_NONE; out_fmt := AV_PIX_FMT_NONE;
     hw_frames_ctx := None; flip_handle := 0; interpolation := 0; layout := "";
     flip_code := code |}.

(** A 2x2 RGB24 frame at device address 1000, rows 8 bytes apart. *)
Definition x : AVFrame :=
  {| fr_width := 2; fr_height := 2; fr_linesize0 := 8; fr_data0 := 1000;
     fr_props := {| pts := 42; pkt_dts := 41; side_data := [(1, [2; 3])] |} |}.

(** Buffers of the output pool. *)
Definition y : AVFrame :=
  {| fr_width := 2; fr_height := 2; fr_linesize0 := 8; fr_data0 := 2000;
     fr_props := no_props |}.
Definition z : AVFrame :=
  {| fr_width := 2; fr_height := 2; fr_linesize0 := 16; fr_data0 := 3000;
     fr_props := no_props |}.

(** Frame [x] lives at address 1; context 7 is current; device memory holds
    at each address the address modulo 256. *)
Definition w0 (code : Z) : World :=
  {| w_trace := []; w_cu_stack := [7]; w_frames := {[ 1%nat := x ]}; w_hwctx := ∅;
     w_gpu := fun a => a mod 256; w_tensors := ∅; w_ops := [];
     w_priv := priv0 code; w_outlink_hw_frames_ctx := None; w_forwarded := [] |}.

Definition dev : AVCUDADeviceContext := {| cuda_ctx := 5; cuda_stream := 9 |}.

Definition in_ctx (fmt : AVPixelFormat) : AVHWFramesContext :=
  {| hwfc_format := AV_PIX_FMT_CUDA; hwfc_sw_format := fmt; hwfc_width := 2;
     hwfc_height := 2; hwfc_device_ref := 3%nat; hwfc_hwctx := dev |}.

(** Every call of [config_props] succeeds. *)
Definition kc_ok : ConfigCalls :=
  {| c_cuCtxPushCurrent := 0; c_av_hwframe_ctx_alloc := Some 10%nat;
     c_av_hwframe_ctx_init := 0; c_av_buffer_ref := true; c_cuCtxPopCurrent := 0;
     c_cvcudaFlipCreate := (0, 77); c_cvcudaFlipCreate_again := (0, 78);
     c_nvcvTensorLayoutMake := 0; c_nvcvTensorLayoutMake_again := 0 |}.

(** [av_hwframe_ctx_alloc] answers NULL. *)
Definition kc_no_ctx : ConfigCalls :=
  {| c_cuCtxPushCurrent := 0; c_av_hwframe_ctx_alloc := None;
     c_av_hwframe_ctx_init := 0; c_av_buffer_ref := true; c_cuCtxPopCurrent := 0;
     c_cvcudaFlipCreate := (0, 77); c_cvcudaFlipCreate_again := (0, 78);
     c_nvcvTensorLayoutMake := 0; c_nvcvTensorLayoutMake_again := 0 |}.

(** [cvcudaFlipCreate] reports a failure (status 3) each time. *)
Definition kc_no_operator : ConfigCalls :=
  {| c_cuCtxPushCurrent := 0; c_av_hwframe_ctx_alloc := Some 10%nat;
     c_av_hwframe_ctx_init := 0; c_av_buffer_ref := true; c_cuCtxPopCurrent := 0;
     c_cvcudaFlipCreate := (3, 0); c_cvcudaFlipCreate_again := (3, 0);
     c_nvcvTensorLayoutMake := 0; c_nvcvTensorLayoutMake_again := 0 |}.

(** Every call of [filter_frame] succeeds; the output frame is allocated at
    address [out] and gets the pool buffer [buf]. *)
Definition kf_ok (out : nat) (buf : AVFrame) : FrameCalls :=
  {| f_cv_in_handle := 0; f_cv_out_handle := 0;
     f_av_frame_alloc := Some out; f_cuCtxPushCurrent := 0;
     f_av_hwframe_get_buffer := (0, buf);
     f_wrap_in := (0, 100); f_wrap_in_again := (0, 101);
     f_wrap_out := (0, 102); f_wrap_out_again := (0, 103);
     f_cvcudaFlipSubmit := 0; f_cvcudaFlipSubmit_again := 0;
     f_cuCtxPopCurrent := 0; f_av_frame_copy_props := 0; f_ff_filter_frame := 0 |}.

(** The construction of the input tensor reports a failure (status 2),
    both times it is called. *)
Definition kf_wrap_fails : FrameCalls :=
  {| f_cv_in_handle := 57005; f_cv_out_handle := 0;
     f_av_frame_alloc := Some 2%nat; f_cuCtxPushCurrent := 0;
     f_av_hwframe_get_buffer := (0, y);
     f_wrap_in := (2, 0); f_wrap_in_again := (2, 0);
     f_wrap_out := (0, 102); f_wrap_out_again := (0, 103);
     f_cvcudaFlipSubmit := 0; f_cvcudaFlipSubmit_again := 0;
     f_cuCtxPopCurrent := 0; f_av_frame_copy_props := 0; f_ff_filter_frame := 0 |}.

(** The pool has no buffer left: [av_hwframe_get_buffer] answers
    [AVERROR(ENOMEM)]. *)
Definition kf_no_buffer : FrameCalls :=
  {| f_cv_in_handle := 0; f_cv_out_handle := 0;
     f_av_frame_alloc := Some 2%nat; f_cuCtxPushCurrent := 0;
     f_av_hwframe_get_buffer := (AVERROR ENOMEM, blank_frame);
     f_wrap_in := (0, 100); f_wrap_in_again := (0, 101);
     f_wrap_out := (0, 102); f_wrap_out_again := (0, 103);
     f_cvcudaFlipSubmit := 0; f_cvcudaFlipSubmit_again := 0;
     f_cuCtxPopCurrent := 0; f_av_frame_copy_props := 0; f_ff_filter_frame := 0 |}.

(** The world once [config_props] has succeeded on an RGB24 link. *)
Definition w_configured (code : Z) : World :=
  (config_props kc_ok (in_ctx AV_PIX_FMT_RGB24) (w0 code)).2.

End Sample.

(** Further readings of the trace. *)
Definition is_unref (e : Event) : bool :=
  match e with Ev_av_buffer_unref _ => true | _ => false end.

(** The host calls of one frame that decide whether it is forwarded: the
    output frame is allocated, it gets a buffer, the metadata is copied. *)
Definition frame_ok (k : FrameCalls) : bool :=
  bool_decide (is_Some (f_av_frame_alloc k) /\
               0 <= (f_av_hwframe_get_buffer k).1 /\
               0 <= f_av_frame_copy_props k).

(** The handle variable after [CK_NVCV(ret = nvcvTensorWrapDataConstruct(...,
    &handle))]: set by the first call if it succeeds, else by the second
    if that one does, else still holding [before], the value it had. *)
Definition handle_after (before : Z) (first again : NVCVStatus * Z) : Z :=
  if decide (first.1 = NVCV_SUCCESS) then first.2
  else if decide (again.1 = NVCV_SUCCESS) then again.2
  else before.

(** The calls one use of [CK_NVCV] makes: the call; and when it fails, the
    call once more and the log line with the status of that second call. *)
Definition ck_events (line : Z) (st st_again : NVCVStatus) (e e_again : Event)
    : list Event :=
  if decide (st = NVCV_SUCCESS) then [e]
  else [e; e_again; Ev_av_log (Log_NVCV_error st_again line)].

(** The calls of lines 249-252, in order. *)
Definition nvcv_events (k : FrameCalls) (s : FlipNvcvContext) (stream : CUstream)
    (din dout : NVCVTensorData) : list Event :=
  let tin := handle_after (f_cv_in_handle k) (f_wrap_in k) (f_wrap_in_again k) in
  let tout := handle_after (f_cv_out_handle k) (f_wrap_out k) (f_wrap_out_again k) in
  ck_events 249 (f_wrap_in k).1 (f_wrap_in_again k).1
    (Ev_nvcvTensorWrapDataConstruct din (f_wrap_in k).1 (f_wrap_in k).2)
    (Ev_nvcvTensorWrapDataConstruct din (f_wrap_in_again k).1 (f_wrap_in_again k).2)
  ++ ck_events 250 (f_wrap_out k).1 (f_wrap_out_again k).1
    (Ev_nvcvTensorWrapDataConstruct dout (f_wrap_out k).1 (f_wrap_out k).2)
    (Ev_nvcvTensorWrapDataConstruct dout (f_wrap_out_again k).1 (f_wrap_out_again k).2)
  ++ ck_events 251 (f_cvcudaFlipSubmit k) (f_cvcudaFlipSubmit_again k)
    (Ev_cvcudaFlipSubmit (flip_handle s) stream tin tout (flip_code s)
       (f_cvcudaFlipSubmit k))
    (Ev_cvcudaFlipSubmit (flip_handle s) stream tin tout (flip_code s)
       (f_cvcudaFlipSubmit_again k)).

(** The driver errors [check_cu] reports. *)
Definition is_cuda_log (e : Event) : bool :=
  match e with Ev_av_log (Log_CUDA_error _ _) => true | _ => false end.

(** What one use of [CHECK_CU] at [line] reports for the status [e]. *)
Definition cu_report (line : Z) (e : CUresult) : list Event :=
  if decide (e = CUDA_SUCCESS) then [] else [Ev_av_log (Log_CUDA_error e line)].

(** More concrete inputs. *)
Module Sample2.

(** [av_hwframe_ctx_init] answers [AVERROR(ENOMEM)]. *)
Definition kc_init_fails : ConfigCalls :=
  {| c_cuCtxPushCurrent := 0; c_av_hwframe_ctx_alloc := Some 10%nat;
     c_av_hwframe_ctx_init := AVERROR ENOMEM; c_av_buffer_ref := true;
     c_cuCtxPopCurrent := 0;
     c_cvcudaFlipCreate := (0, 77); c_cvcudaFlipCreate_again := (0, 78);
     c_nvcvTensorLayoutMake := 0; c_nvcvTensorLayoutMake_again := 0 |}.

(** A second configuration: another context address, another operator. *)
Definition kc_again : ConfigCalls :=
  {| c_cuCtxPushCurrent := 0; c_av_hwframe_ctx_alloc := Some 11%nat;
     c_av_hwframe_ctx_init := 0; c_av_buffer_ref := true; c_cuCtxPopCurrent := 0;
     c_cvcudaFlipCreate := (0, 88); c_cvcudaFlipCreate_again := (0, 89);
     c_nvcvTensorLayoutMake := 0; c_nvcvTensorLayoutMake_again := 0 |}.


(** The world after an RGB24 link was configured and a second
    configuration, on a planar YUV link, was rejected: [config_props] has
    stored the new format in the context before testing it, and the pool
    of the first configuration is still there. *)
Definition w_rejected : World :=
  (config_props kc_again (Sample.in_ctx AV_PIX_FMT_YUV420P) (Sample.w_configured 0)).2.

(** [av_frame_alloc] answers NULL. *)
Definition kf_no_frame : FrameCalls :=
  {| f_cv_in_handle := 0; f_cv_out_handle := 0;
     f_av_frame_alloc := None; f_cuCtxPushCurrent := 0;
     f_av_hwframe_get_buffer := (0, Sample.y);
     f_wrap_in := (0, 100); f_wrap_in_again := (0, 101);
     f_wrap_out := (0, 102); f_wrap_out_again := (0, 103);
     f_cvcudaFlipSubmit := 0; f_cvcudaFlipSubmit_again := 0;
     f_cuCtxPopCurrent := 0; f_av_frame_copy_props := 0; f_ff_filter_frame := 0 |}.

(** [av_frame_copy_props] answers [AVERROR(ENOMEM)]. *)
Definition kf_copy_fails : FrameCalls :=
  {| f_cv_in_handle := 0; f_cv_out_handle := 0;
     f_av_frame_alloc := Some 2%nat; f_cuCtxPushCurrent := 0;
     f_av_hwframe_get_buffer := (0, Sample.y);
     f_wrap_in := (0, 100); f_wrap_in_again := (0, 101);
     f_wrap_out := (0, 102); f_wrap_out_again := (0, 103);
     f_cvcudaFlipSubmit := 0; f_cvcudaFlipSubmit_again := 0;
     f_cuCtxPopCurrent := 0; f_av_frame_copy_props := AVERROR ENOMEM;
     f_ff_filter_frame := 0 |}.

(** [cuCtxPushCurrent] reports a failure (status 201), the rest succeeds. *)
Definition kf_push_fails : FrameCalls :=
  {| f_cv_in_handle := 0; f_cv_out_handle := 0;
     f_av_frame_alloc := Some 2%nat; f_cuCtxPushCurrent := 201;
     f_av_hwframe_get_buffer := (0, Sample.y);
     f_wrap_in := (0, 100); f_wrap_in_again := (0, 101);
     f_wrap_out := (0, 102); f_wrap_out_again := (0, 103);
     f_cvcudaFlipSubmit := 0; f_cvcudaFlipSubmit_again := 0;
     f_cuCtxPopCurrent := 0; f_av_frame_copy_props := 0; f_ff_filter_frame := 0 |}.

(** The flip is refused (status 2) the first time and accepted the
    second. *)
Definition kf_submit_retried : FrameCalls :=
  {| f_cv_in_handle := 0; f_cv_out_handle := 0;
     f_av_frame_alloc := Some 2%nat; f_cuCtxPushCurrent := 0;
     f_av_hwframe_get_buffer := (0, Sample.y);
     f_wrap_in := (0, 100); f_wrap_in_again := (0, 101);
     f_wrap_out := (0, 102); f_wrap_out_again := (0, 103);
     f_cvcudaFlipSubmit := 2; f_cvcudaFlipSubmit_again := 0;
     f_cuCtxPopCurrent := 0; f_av_frame_copy_props := 0; f_ff_filter_frame := 0 |}.


End Sample2.

(** ** Basic facts *)

Lemma new_events_app w w' evs :
  w_trace w' = w_trace w ++ evs -> new_events w w' = evs.
Proof. intros H. unfold new_events. rewrite H. apply drop_app_length. Qed.

Lemma count_app p tr1 tr2 : count p (tr1 ++ tr2) = (count p tr1 + count p tr2)%nat.
Proof. unfold count. rewrite List.filter_app. apply length_app. Qed.

(** ** Tactics for running the callbacks *)

Ltac munfold :=
  cbv beta iota zeta delta
    [mbind M_bind mret M_ret get_priv get_frame get_world modify emit av_log
     check_cu CHECK_CU CK_NVCV CK_NVCV_ret fail
     cuCtxPushCurrent cuCtxPopCurrent av_hwframe_ctx_alloc av_hwframe_ctx_init
     av_buffer_unref av_buffer_ref cvcudaFlipCreate nvcvTensorLayoutMake
     av_frame_alloc av_hwframe_get_buffer nvcvTensorWrapDataConstruct
     cvcudaFlipSubmit av_frame_copy_props av_frame_free ff_filter_frame
     nvcvOperatorDestroy].

Ltac mcases :=
  repeat (simpl in *; try case_decide; try lia; try congruence; try done).

(** ** [format_is_supported] *)

Lemma format_is_supported_from_spec l fmt :
  (fmt ∈ l -> format_is_supported_from l fmt = 1) /\
  (fmt ∉ l -> format_is_supported_from l fmt = 0).
Proof.
  induction l as [|f l [IH1 IH0]]; simpl.
  - split; [intros H; inversion H | done].
  - destruct (decide (f = fmt)) as [->|Hne]; split; intros H; try done.
    + exfalso. apply H. left.
    + apply IH1. apply elem_of_cons in H as [->|H]; [congruence | done].
    + apply IH0. intros Hin. apply H. by right.
Qed.

Lemma format_is_supported_1 fmt :
  fmt ∈ supported_formats -> format_is_supported fmt = 1.
Proof. apply format_is_supported_from_spec. Qed.

Lemma format_is_supported_0 fmt :
  fmt ∉ supported_formats -> format_is_supported fmt = 0.
Proof. apply format_is_supported_from_spec. Qed.

Lemma format_is_supported_inv fmt :
  format_is_supported fmt <> 0 -> fmt ∈ supported_formats.
Proof.
  intros H. destruct (decide (fmt ∈ supported_formats)) as [|Hn]; [done|].
  by apply format_is_supported_0 in Hn.
Qed.

(** ** Reasoning about computations piecewise *)

Section Piecewise.
Context {A B : Type}.

Lemma appends_ret P (a : A) : appends P (mret a).
Proof. intros w. exists []. split; [symmetry; apply app_nil_r | constructor]. Qed.

Lemma appends_bind P (m : M A) (k : A -> M B) :
  appends P m -> (forall a, appends P (k a)) -> appends P (m ≫= k).
Proof.
  intros Hm Hk w. unfold mbind, M_bind.
  destruct (Hm w) as (evs1 & E1 & F1). destruct (m w) as [a w1]. simpl in *.
  destruct (Hk a w1) as (evs2 & E2 & F2).
  exists (evs1 ++ evs2). split.
  - rewrite E2, E1. symmetry. apply app_assoc.
  - by apply Forall_app.
Qed.

Lemma keeps_ret {X} (proj : World -> X) (a : A) : keeps proj (mret a).
Proof. by intros w. Qed.

Lemma keeps_bind {X} (proj : World -> X) (m : M A) (k : A -> M B) :
  keeps proj m -> (forall a, keeps proj (k a)) -> keeps proj (m ≫= k).
Proof.
  intros Hm Hk w. unfold mbind, M_bind.
  specialize (Hm w). destruct (m w) as [a w1]. simpl in *.
  rewrite <- Hm. apply Hk.
Qed.

End Piecewise.

Lemma appends_emit (P : Event -> Prop) e : P e -> appends P (emit e).
Proof. intros H w. exists [e]. split; [done | by constructor]. Qed.

Lemma appends_modify P (f : World -> World) :
  (forall w, w_trace (f w) = w_trace w) -> appends P (modify f).
Proof.
  intros H w. exists []. simpl. rewrite H. split; [symmetry; apply app_nil_r | constructor].
Qed.

Lemma appends_get_priv P : appends P get_priv.
Proof. intros w. exists []. split; [symmetry; apply app_nil_r | constructor]. Qed.

Lemma appends_get_frame P f : appends P (get_frame f).
Proof. intros w. exists []. split; [symmetry; apply app_nil_r | constructor]. Qed.

Lemma appends_get_world P : appends P get_world.
Proof. intros w. exists []. split; [symmetry; apply app_nil_r | constructor]. Qed.

Lemma keeps_modify {X} (proj : World -> X) (f : World -> World) :
  (forall w, proj (f w) = proj w) -> keeps proj (modify f).
Proof. intros H w. apply H. Qed.

Lemma keeps_get_priv {X} (proj : World -> X) : keeps proj get_priv.
Proof. by intros w. Qed.

Lemma keeps_get_frame {X} (proj : World -> X) f : keeps proj (get_frame f).
Proof. by intros w. Qed.

Lemma keeps_get_world {X} (proj : World -> X) : keeps proj get_world.
Proof. by intros w. Qed.

Ltac unfold_calls :=
  unfold CHECK_CU, CK_NVCV, CK_NVCV_ret, fail, check_cu,
    cuCtxPushCurrent, cuCtxPopCurrent, av_hwframe_ctx_alloc, av_hwframe_ctx_init,
    av_buffer_unref, av_buffer_ref, cvcudaFlipCreate, nvcvTensorLayoutMake,
    av_frame_alloc, av_hwframe_get_buffer, nvcvTensorWrapDataConstruct,
    cvcudaFlipSubmit, av_frame_copy_props, av_frame_free, ff_filter_frame,
    nvcvOperatorDestroy, av_log.

Ltac split_branch :=
  match goal with
  | |- context [match ?x with _ => _ end] => destruct x
  end.

(** Walk through a computation, one bind at a time. *)
Ltac appends_walk :=
  unfold_calls;
  repeat first
    [ apply appends_ret
    | apply appends_get_priv
    | apply appends_get_frame
    | apply appends_get_world
    | apply appends_emit; solve [reflexivity | done | simpl; auto]
    | apply appends_modify; intros; reflexivity
    | apply appends_bind; [|intros]
    | split_branch ].

Ltac keeps_walk :=
  unfold_calls; unfold emit;
  repeat first
    [ apply keeps_ret
    | apply keeps_get_priv
    | apply keeps_get_frame
    | apply keeps_get_world
    | apply keeps_modify; intros; reflexivity
    | apply keeps_bind; [|intros]
    | split_branch ].

(** *** The NVCV block *)

Lemma nvcv_operation_appends k s stream d1 d2 in_ out :
  appends (fun e => is_nvcv_call e = true) (nvcv_operation k s stream d1 d2 in_ out).
Proof. unfold nvcv_operation. appends_walk. Qed.

Lemma nvcv_operation_keeps_frames k s stream d1 d2 in_ out :
  keeps w_frames (nvcv_operation k s stream d1 d2 in_ out).
Proof. unfold nvcv_operation. keeps_walk. Qed.

Lemma nvcv_operation_keeps_cu_stack k s stream d1 d2 in_ out :
  keeps w_cu_stack (nvcv_operation k s stream d1 d2 in_ out).
Proof. unfold nvcv_operation. keeps_walk. Qed.

Lemma nvcv_operation_keeps_forwarded k s stream d1 d2 in_ out :
  keeps w_forwarded (nvcv_operation k s stream d1 d2 in_ out).
Proof. unfold nvcv_operation. keeps_walk. Qed.

Lemma nvcv_operation_keeps_priv k s stream d1 d2 in_ out :
  keeps w_priv (nvcv_operation k s stream d1 d2 in_ out).
Proof. unfold nvcv_operation. keeps_walk. Qed.

#[local] Arguments nvcv_operation : simpl never.

Ltac trace_eq := simpl; rewrite <- ?app_assoc; simpl; reflexivity.

(** Case analysis on the tests a computation makes. *)
Ltac branch :=
  repeat (simpl;
          first [ case_decide
                | match goal with
                  | |- context [match (?m !! ?h) with _ => _ end] => destruct (m !! h)
                  end ];
          try lia; try congruence).

Ltac in_list := solve [repeat constructor].

(** A failed NVCV call leaves a log line: the status of its second run. *)
Lemma nvcv_operation_logs k s stream d1 d2 in_ out w :
  let evs := new_events w (nvcv_operation k s stream d1 d2 in_ out w).2 in
  ((f_wrap_in k).1 <> NVCV_SUCCESS ->
     Ev_av_log (Log_NVCV_error (f_wrap_in_again k).1 249) ∈ evs) /\
  ((f_wrap_out k).1 <> NVCV_SUCCESS ->
     Ev_av_log (Log_NVCV_error (f_wrap_out_again k).1 250) ∈ evs) /\
  (f_cvcudaFlipSubmit k <> NVCV_SUCCESS ->
     Ev_av_log (Log_NVCV_error (f_cvcudaFlipSubmit_again k) 251) ∈ evs).
Proof.
  unfold nvcv_operation. munfold. branch.
  all: erewrite new_events_app; [|trace_eq].
  all: split_and!; intros; try done; in_list.
Qed.

(** The tensors the block describes: the first call of each pair always
    runs, and every construction is for one of the two descriptors. *)
Lemma nvcv_operation_wraps k s stream d1 d2 in_ out w :
  let evs := new_events w (nvcv_operation k s stream d1 d2 in_ out w).2 in
  let din := fill_tensor_data (w_frames w !!! in_) d1 (layout s) cv_data_init in
  let dout := fill_tensor_data (w_frames w !!! out) d2 (layout s) cv_data_init in
  Ev_nvcvTensorWrapDataConstruct din (f_wrap_in k).1 (f_wrap_in k).2 ∈ evs /\
  Ev_nvcvTensorWrapDataConstruct dout (f_wrap_out k).1 (f_wrap_out k).2 ∈ evs /\
  (forall d st h, Ev_nvcvTensorWrapDataConstruct d st h ∈ evs -> d = din \/ d = dout).
Proof.
  unfold nvcv_operation. munfold. branch.
  all: erewrite new_events_app; [|trace_eq].
  all: split_and!; try in_list.
  all: intros d st h Hd.
  all: repeat (apply elem_of_cons in Hd as [Hd|Hd]; [inversion Hd; subst; tauto|]).
  all: by apply elem_of_nil in Hd.
Qed.

(** *** The frame heap around the output frame *)

Lemma heap_lookup_in (m : gmap nat AVFrame) in_ out a b fin :
  out <> in_ -> m !! in_ = Some fin ->
  <[out:=b]> (<[out:=a]> m) !!! in_ = fin.
Proof.
  intros Hne Hin. rewrite lookup_total_alt, !lookup_insert_ne by done.
  by rewrite Hin.
Qed.

Lemma heap_lookup_out (m : gmap nat AVFrame) out a b :
  <[out:=b]> (<[out:=a]> m) !!! out = b.
Proof. by rewrite lookup_total_alt, lookup_insert_eq. Qed.

Lemma heap_lookup_forwarded (m : gmap nat AVFrame) in_ out a b f :
  out <> in_ ->
  delete in_ (alter f out (<[out:=b]> (<[out:=a]> m))) !!! out = f b.
Proof.
  intros Hne. rewrite lookup_total_alt, lookup_delete_ne by done.
  by rewrite lookup_alter_eq, lookup_insert_eq.
Qed.

Lemma new_events_snoc3 w w' T a b c :
  w_trace w' = ((T ++ [a]) ++ [b]) ++ [c] ->
  (exists pre, T = w_trace w ++ pre) ->
  exists evs, new_events w w' = evs ++ [a; b; c].
Proof.
  intros E (pre & ->). exists pre. apply new_events_app.
  rewrite E, <- !app_assoc. reflexivity.
Qed.

Lemma new_events_last w w' T a :
  w_trace w' = T ++ [a] ->
  (exists pre, T = w_trace w ++ pre) ->
  last (new_events w w') = Some a.
Proof.
  intros E (pre & ->). erewrite new_events_app; [|by rewrite E, <- app_assoc].
  apply last_snoc.
Qed.

Ltac trace_prefix := eexists; rewrite <- ?app_assoc; reflexivity.

(** What the theorems below need to know about the NVCV block, at once. *)
Lemma nvcv_operation_summary k s stream d1 d2 in_ out w :
  let w' := (nvcv_operation k s stream d1 d2 in_ out w).2 in
  let din := fill_tensor_data (w_frames w !!! in_) d1 (layout s) cv_data_init in
  let dout := fill_tensor_data (w_frames w !!! out) d2 (layout s) cv_data_init in
  exists evs,
    w_trace w' = w_trace w ++ evs /\
    Forall (fun e => is_nvcv_call e = true) evs /\
    ((f_wrap_in k).1 <> NVCV_SUCCESS ->
       Ev_av_log (Log_NVCV_error (f_wrap_in_again k).1 249) ∈ evs) /\
    ((f_wrap_out k).1 <> NVCV_SUCCESS ->
       Ev_av_log (Log_NVCV_error (f_wrap_out_again k).1 250) ∈ evs) /\
    (f_cvcudaFlipSubmit k <> NVCV_SUCCESS ->
       Ev_av_log (Log_NVCV_error (f_cvcudaFlipSubmit_again k) 251) ∈ evs) /\
    Ev_nvcvTensorWrapDataConstruct din (f_wrap_in k).1 (f_wrap_in k).2 ∈ evs /\
    Ev_nvcvTensorWrapDataConstruct dout (f_wrap_out k).1 (f_wrap_out k).2 ∈ evs /\
    (forall d st h, Ev_nvcvTensorWrapDataConstruct d st h ∈ evs -> d = din \/ d = dout) /\
    w_frames w' = w_frames w /\
    w_cu_stack w' = w_cu_stack w /\
    w_forwarded w' = w_forwarded w.
Proof.
  intros w' din dout.
  destruct (nvcv_operation_appends k s stream d1 d2 in_ out w) as (evs & E & F).
  pose proof (nvcv_operation_logs k s stream d1 d2 in_ out w) as L.
  pose proof (nvcv_operation_wraps k s stream d1 d2 in_ out w) as W.
  simpl in L, W. rewrite (new_events_app _ _ _ E) in L, W.
  destruct L as (L1 & L2 & L3). destruct W as (W1 & W2 & W3).
  exists evs. split_and!; try done.
  - apply nvcv_operation_keeps_frames.
  - apply nvcv_operation_keeps_cu_stack.
  - apply nvcv_operation_keeps_forwarded.
Qed.

(** Name the world the NVCV block leaves, and recall what is known of it. *)
Ltac name_nvcv :=
  match goal with
  | |- context [nvcv_operation ?k ?s ?st ?d1 ?d2 ?i ?o ?w] =>
      let evs := fresh "nvcv_evs" in
      destruct (nvcv_operation_summary k s st d1 d2 i o w)
        as (evs & Htrace & Hnvcv & Hlog_in & Hlog_out & Hlog_submit
            & Hwrap_in & Hwrap_out & Hwraps & Hframes & Hstack & Hforwarded);
      destruct (nvcv_operation k s st d1 d2 i o w) as [? ?];
      simpl in Htrace, Hframes, Hstack, Hforwarded, Hwrap_in, Hwrap_out, Hwraps
  end.

Ltac in_events :=
  repeat apply list_elem_of_further; apply elem_of_app; left; assumption.

(** ** Configuration *)

Lemma config_props_appends k ctx :
  appends (fun e => is_destroy e = false) (config_props k ctx).
Proof. unfold config_props. appends_walk. Qed.

(** Configuration succeeds on a supported format when the host does. *)
Lemma config_props_succeeds k ctx w :
  hwfc_sw_format ctx ∈ supported_formats ->
  is_Some (c_av_hwframe_ctx_alloc k) ->
  0 <= c_av_hwframe_ctx_init k ->
  c_av_buffer_ref k = true ->
  (config_props k ctx w).1 = 0.
Proof.
  intros Hfmt [a Ha] Hinit Href. apply format_is_supported_1 in Hfmt.
  unfold config_props. munfold. rewrite Ha, Href. mcases.
Qed.

(** C3, as amended.  When the software format of the input link is not in
    the supported set, [config_props] fails before any GPU work: it returns
    the not-implemented error [AVERROR(ENOSYS)] if the output frames context
    could be allocated and the out-of-memory error [AVERROR(ENOMEM)] if not;
    in both cases no operator is created, no tensor is built, nothing is
    submitted and no frame is allocated. *)
Theorem config_props_rejects_unsupported k ctx w :
  hwfc_sw_format ctx ∉ supported_formats ->
  let r := (config_props k ctx w).1 in
  let w' := (config_props k ctx w).2 in
  r = (if c_av_hwframe_ctx_alloc k is Some _ then AVERROR ENOSYS else AVERROR ENOMEM) /\
  r < 0 /\
  Forall (fun e => is_gpu_work e = false) (new_events w w') /\
  w_ops w' = w_ops w /\
  w_frames w' = w_frames w /\
  w_gpu w' = w_gpu w /\
  flip_handle (w_priv w') = flip_handle (w_priv w).
Proof.
  intros Hfmt. apply format_is_supported_0 in Hfmt.
  unfold config_props. munfold.
  destruct (c_av_hwframe_ctx_alloc k); mcases.
  all: repeat split; try done.
  all: erewrite new_events_app; [|trace_eq].
  all: repeat constructor.
Qed.

Lemma yuv420p_is_unsupported : AV_PIX_FMT_YUV420P ∉ supported_formats.
Proof.
  unfold supported_formats. intros H.
  repeat (apply elem_of_cons in H as [H|H]; [discriminate H|]).
  by apply elem_of_nil in H.
Qed.

Lemma config_props_rejects_unsupported_witness :
  (AV_PIX_FMT_YUV420P ∉ supported_formats) /\
  (config_props Sample.kc_ok (Sample.in_ctx AV_PIX_FMT_YUV420P) (Sample.w0 0)).1
    = AVERROR ENOSYS /\
  Forall (fun e => is_gpu_work e = false)
    (new_events (Sample.w0 0)
       (config_props Sample.kc_ok (Sample.in_ctx AV_PIX_FMT_YUV420P) (Sample.w0 0)).2).
Proof.
  pose proof (config_props_rejects_unsupported Sample.kc_ok
                (Sample.in_ctx AV_PIX_FMT_YUV420P) (Sample.w0 0)
                yuv420p_is_unsupported) as (Hr & _ & Hev & _).
  split; [exact yuv420p_is_unsupported|]. split; [exact Hr | exact Hev].
Defined.

(** C3 as stated fails: with a planar YUV input whose output frames context
    cannot be allocated, [config_props] returns [AVERROR(ENOMEM)], which is
    not the unsupported-format error. *)
Lemma config_props_unsupported_but_enomem :
  (AV_PIX_FMT_YUV420P ∉ supported_formats) /\
  (config_props Sample.kc_no_ctx (Sample.in_ctx AV_PIX_FMT_YUV420P) (Sample.w0 0)).1
    = AVERROR ENOMEM /\
  AVERROR ENOMEM <> AVERROR ENOSYS.
Proof. split; [exact yuv420p_is_unsupported|]. split; [reflexivity | discriminate]. Qed.

(** C4.  When [config_props] succeeds, the output link holds a hardware
    frames context whose width, height and software pixel format are those
    of the input link's context (and the format is a supported one). *)
Theorem config_props_output_context k ctx w :
  (config_props k ctx w).1 = 0 ->
  let w' := (config_props k ctx w).2 in
  hwfc_sw_format ctx ∈ supported_formats /\
  exists ref out_ctx,
    w_outlink_hw_frames_ctx w' = Some ref /\
    w_hwctx w' !! ref = Some out_ctx /\
    hwfc_width out_ctx = hwfc_width ctx /\
    hwfc_height out_ctx = hwfc_height ctx /\
    hwfc_sw_format out_ctx = hwfc_sw_format ctx.
Proof.
  unfold config_props. munfold.
  destruct (c_av_hwframe_ctx_alloc k) as [a|], (c_av_buffer_ref k);
    cbv [AVERROR ENOMEM ENOSYS]; mcases.
  all: intros; split; [apply format_is_supported_inv; done|].
  all: exists a; eexists; split; [reflexivity|]; simpl.
  all: rewrite !lookup_alter_eq, lookup_insert_eq; simpl; done.
Qed.

Lemma config_props_output_context_witness :
  (config_props Sample.kc_ok (Sample.in_ctx AV_PIX_FMT_BGRA) (Sample.w0 1)).1 = 0 /\
  exists ref out_ctx,
    w_outlink_hw_frames_ctx
      (config_props Sample.kc_ok (Sample.in_ctx AV_PIX_FMT_BGRA) (Sample.w0 1)).2
      = Some ref /\
    w_hwctx (config_props Sample.kc_ok (Sample.in_ctx AV_PIX_FMT_BGRA) (Sample.w0 1)).2
      !! ref = Some out_ctx /\
    hwfc_width out_ctx = 2 /\
    hwfc_height out_ctx = 2 /\
    hwfc_sw_format out_ctx = AV_PIX_FMT_BGRA.
Proof.
  split; [reflexivity|].
  exact (proj2 (config_props_output_context Sample.kc_ok (Sample.in_ctx AV_PIX_FMT_BGRA)
                  (Sample.w0 1) eq_refl)).
Defined.

(** ** The per-frame path *)

Lemma filter_frame_result desc k ctx in_ w :
  (filter_frame desc k ctx in_ w).1 = host_result k.
Proof.
  unfold filter_frame, host_result. munfold.
  destruct (f_av_frame_alloc k) as [out|]; [|done].
  branch.
  all: try name_nvcv.
  all: done.
Qed.

(** C5.  The value [filter_frame] returns is a function of the answers of
    the host calls alone ([host_result]), whatever the statuses of
    [nvcvTensorWrapDataConstruct] and [cvcudaFlipSubmit] are.  When the
    output frame and its buffer are obtained and the metadata copy
    succeeds, it goes on past a failed library call, forwards the frame as
    its last action and returns what [ff_filter_frame] returns; a failed
    library call leaves the log line of [CK_NVCV], which shows the status
    of the macro's second evaluation of the call. *)
Theorem filter_frame_ignores_nvcv_status desc k ctx in_ w :
  let r := (filter_frame desc k ctx in_ w).1 in
  let evs := new_events w (filter_frame desc k ctx in_ w).2 in
  r = host_result k /\
  (forall out,
     f_av_frame_alloc k = Some out ->
     0 <= (f_av_hwframe_get_buffer k).1 ->
     0 <= f_av_frame_copy_props k ->
     r = f_ff_filter_frame k /\
     last evs = Some (Ev_ff_filter_frame out (f_ff_filter_frame k)) /\
     (Z.land (desc_flags (desc (in_fmt (w_priv w)))) AV_PIX_FMT_FLAG_RGB <> 0 ->
        ((f_wrap_in k).1 <> NVCV_SUCCESS ->
           Ev_av_log (Log_NVCV_error (f_wrap_in_again k).1 249) ∈ evs) /\
        ((f_wrap_out k).1 <> NVCV_SUCCESS ->
           Ev_av_log (Log_NVCV_error (f_wrap_out_again k).1 250) ∈ evs) /\
        (f_cvcudaFlipSubmit k <> NVCV_SUCCESS ->
           Ev_av_log (Log_NVCV_error (f_cvcudaFlipSubmit_again k) 251) ∈ evs))).
Proof.
  split; [apply filter_frame_result|].
  intros out Halloc Hbuf Hcopy.
  unfold filter_frame. munfold. rewrite Halloc.
  branch.
  all: try name_nvcv.
  all: simpl.
  all: split_and!; [done | | ].
  all: try (eapply new_events_last; [simpl; reflexivity | rewrite ?Htrace; trace_prefix]).
  all: try done.
  all: intros _.
  all: erewrite new_events_app; [|simpl; rewrite Htrace; trace_eq].
  all: split_and!; intros Hst;
    [ specialize (Hlog_in Hst) | specialize (Hlog_out Hst) | specialize (Hlog_submit Hst) ].
  all: in_events.
Qed.

Lemma filter_frame_ignores_nvcv_status_witness :
  let run := filter_frame Sample.pixdesc Sample.kf_wrap_fails
               (Sample.in_ctx AV_PIX_FMT_RGB24) 1%nat (Sample.w_configured 0) in
  (f_wrap_in Sample.kf_wrap_fails).1 = 2 /\
  run.1 = f_ff_filter_frame Sample.kf_wrap_fails /\
  last (new_events (Sample.w_configured 0) run.2) = Some (Ev_ff_filter_frame 2 0) /\
  Ev_av_log (Log_NVCV_error 2 249) ∈ new_events (Sample.w_configured 0) run.2.
Proof.
  destruct (filter_frame_ignores_nvcv_status Sample.pixdesc Sample.kf_wrap_fails
              (Sample.in_ctx AV_PIX_FMT_RGB24) 1%nat (Sample.w_configured 0))
    as (_ & H).
  destruct (H 2%nat eq_refl ltac:(simpl; lia) ltac:(simpl; lia)) as (Hr & Hlast & Hlog).
  destruct (Hlog ltac:(discriminate)) as (Hlog_in & _).
  split; [reflexivity|]. split; [exact Hr|]. split; [exact Hlast|].
  exact (Hlog_in ltac:(discriminate)).
Defined.

(** C8.  For a frame that is processed successfully, exactly one frame is
    handed to the next filter, and its metadata (timestamps and side data)
    is that of the input frame, while its geometry and device address are
    those of the buffer the pool gave.  The copy is made before the input
    frame is freed: the last three calls are [av_frame_copy_props],
    [av_frame_free(&in)], [ff_filter_frame]. *)
Theorem filter_frame_copies_props desc k ctx in_ w out fin :
  w_frames w !! in_ = Some fin ->
  out <> in_ ->
  f_av_frame_alloc k = Some out ->
  0 <= (f_av_hwframe_get_buffer k).1 ->
  0 <= f_av_frame_copy_props k ->
  let w' := (filter_frame desc k ctx in_ w).2 in
  let buf := (f_av_hwframe_get_buffer k).2 in
  (exists f,
     w_forwarded w' = w_forwarded w ++ [(out, f)] /\
     fr_props f = fr_props fin /\
     pts (fr_props f) = pts (fr_props fin) /\
     pkt_dts (fr_props f) = pkt_dts (fr_props fin) /\
     side_data (fr_props f) = side_data (fr_props fin) /\
     fr_width f = fr_width buf /\ fr_height f = fr_height buf /\
     fr_linesize0 f = fr_linesize0 buf /\ fr_data0 f = fr_data0 buf) /\
  (exists evs,
     new_events w w' =
       evs ++ [Ev_av_frame_copy_props out in_ (f_av_frame_copy_props k);
               Ev_av_frame_free (Some in_);
               Ev_ff_filter_frame out (f_ff_filter_frame k)]) /\
  w_frames w' !! in_ = None.
Proof.
  intros Hin Hne Halloc Hbuf Hcopy.
  unfold filter_frame. munfold. rewrite Halloc.
  branch.
  all: try name_nvcv.
  all: simpl; rewrite ?Hforwarded, ?Hframes.
  all: rewrite heap_lookup_forwarded, (heap_lookup_in _ _ _ _ _ fin) by done.
  all: split_and!; [eexists; split_and!; reflexivity | | ].
  all: try (eapply new_events_snoc3; [simpl; reflexivity | rewrite ?Htrace; trace_prefix]).
  all: apply lookup_delete_eq.
Qed.

Lemma filter_frame_copies_props_witness :
  let w := Sample.w_configured 0 in
  let w' := (filter_frame Sample.pixdesc (Sample.kf_ok 2 Sample.y)
               (Sample.in_ctx AV_PIX_FMT_RGB24) 1%nat w).2 in
  w_frames w !! 1%nat = Some Sample.x /\
  (exists f, w_forwarded w' = [(2%nat, f)] /\
             pts (fr_props f) = 42 /\ pkt_dts (fr_props f) = 41 /\
             side_data (fr_props f) = [(1, [2; 3])] /\
             fr_data0 f = 2000) /\
  w_frames w' !! 1%nat = None.
Proof.
  pose proof (filter_frame_copies_props Sample.pixdesc (Sample.kf_ok 2 Sample.y)
                (Sample.in_ctx AV_PIX_FMT_RGB24) 1%nat (Sample.w_configured 0) 2%nat
                Sample.x eq_refl ltac:(lia) eq_refl ltac:(simpl; lia) ltac:(simpl; lia))
    as ((f & Hq & _ & Hpts & Hdts & Hside & _ & _ & _ & Hdata) & _ & Hfree).
  split; [reflexivity|]. split; [|exact Hfree].
  exists f. split_and!; [exact Hq | exact Hpts | exact Hdts | exact Hside | exact Hdata].
Defined.

(** C9.  When the source format lacks the RGB flag, [filter_frame] builds
    no tensor and submits nothing, and device memory is untouched,
    whatever the host answers; and when the host calls succeed it still
    allocates an output frame and takes a buffer from the pool, copies the
    input's metadata onto it, frees the input, forwards the output frame
    (its pixels being whatever the pool's buffer held), and returns what
    [ff_filter_frame] returns. *)
Theorem filter_frame_without_rgb_flag desc k ctx in_ w :
  Z.land (desc_flags (desc (in_fmt (w_priv w)))) AV_PIX_FMT_FLAG_RGB = 0 ->
  let r := (filter_frame desc k ctx in_ w).1 in
  let w' := (filter_frame desc k ctx in_ w).2 in
  let buf := (f_av_hwframe_get_buffer k).2 in
  (Forall (fun e => is_wrap e = false /\ is_submit e = false) (new_events w w') /\
   w_gpu w' = w_gpu w) /\
  (forall out fin,
     w_frames w !! in_ = Some fin ->
     out <> in_ ->
     f_av_frame_alloc k = Some out ->
     0 <= (f_av_hwframe_get_buffer k).1 ->
     0 <= f_av_frame_copy_props k ->
     Ev_av_frame_alloc (Some out) ∈ new_events w w' /\
     Ev_av_hwframe_get_buffer (hw_frames_ctx (w_priv w)) out (f_av_hwframe_get_buffer k).1
       ∈ new_events w w' /\
     (exists evs,
        new_events w w' =
          evs ++ [Ev_av_frame_copy_props out in_ (f_av_frame_copy_props k);
                  Ev_av_frame_free (Some in_);
                  Ev_ff_filter_frame out (f_ff_filter_frame k)]) /\
     (exists f,
        w_forwarded w' = w_forwarded w ++ [(out, f)] /\
        fr_props f = fr_props fin /\
        pts (fr_props f) = pts (fr_props fin) /\
        pkt_dts (fr_props f) = pkt_dts (fr_props fin) /\
        side_data (fr_props f) = side_data (fr_props fin) /\
        fr_width f = fr_width buf /\ fr_height f = fr_height buf /\
        fr_linesize0 f = fr_linesize0 buf /\ fr_data0 f = fr_data0 buf) /\
     w_frames w' !! in_ = None /\
     r = f_ff_filter_frame k).
Proof.
  intros Hrgb. split.
  - unfold filter_frame. munfold.
    destruct (f_av_frame_alloc k) as [out|]; branch.
    all: simpl; split; [|done].
    all: erewrite new_events_app; [|trace_eq]; repeat constructor.
  - intros out fin Hin Hne Halloc Hbuf Hcopy.
    unfold filter_frame. munfold. rewrite Halloc.
    branch.
    all: simpl.
    all: rewrite heap_lookup_forwarded, (heap_lookup_in _ _ _ _ _ fin) by done.
    all: split_and!; try done.
    all: lazymatch goal with
         | |- _ ∈ _ => erewrite new_events_app; [|trace_eq]; in_list
         | |- exists f : AVFrame, _ => eexists; split_and!; reflexivity
         | |- ex _ => eapply new_events_snoc3; [simpl; reflexivity | trace_prefix]
         | |- _ => apply lookup_delete_eq
         end.
Qed.

(** The branch is taken in a context whose [in_fmt] has no RGB flag.
    [config_props] stores the link's format in [s->in_fmt] (line 142)
    before it tests it (line 150), so the context of [Sample2.w_rejected]
    is such a one: its format is planar YUV, and the pool is the one the
    earlier, successful configuration left in [s->hw_frames_ctx]. *)
Lemma filter_frame_without_rgb_flag_witness :
  let w := Sample2.w_rejected in
  let run := filter_frame Sample.pixdesc (Sample.kf_ok 2 Sample.y)
               (Sample.in_ctx AV_PIX_FMT_YUV420P) 1%nat w in
  in_fmt (w_priv w) = AV_PIX_FMT_YUV420P /\
  hw_frames_ctx (w_priv w) = Some 10%nat /\
  Z.land (desc_flags (Sample.pixdesc (in_fmt (w_priv w)))) AV_PIX_FMT_FLAG_RGB = 0 /\
  Forall (fun e => is_wrap e = false /\ is_submit e = false) (new_events w run.2) /\
  Ev_av_hwframe_get_buffer (Some 10%nat) 2 0 ∈ new_events w run.2 /\
  (exists f, w_forwarded run.2 = [(2%nat, f)] /\
             pts (fr_props f) = 42 /\ pkt_dts (fr_props f) = 41 /\
             side_data (fr_props f) = [(1, [2; 3])] /\
             fr_data0 f = 2000) /\
  w_gpu run.2 = w_gpu w /\
  run.1 = 0.
Proof.
  pose proof (filter_frame_without_rgb_flag Sample.pixdesc (Sample.kf_ok 2 Sample.y)
                (Sample.in_ctx AV_PIX_FMT_YUV420P) 1%nat Sample2.w_rejected eq_refl)
    as ((Hev & Hgpu) & Hrest).
  destruct (Hrest 2%nat Sample.x eq_refl ltac:(lia) eq_refl ltac:(simpl; lia)
              ltac:(simpl; lia))
    as (_ & Hpool & _ & (f & Hq & _ & Hpts & Hdts & Hside & _ & _ & _ & Hdata) & _ & Hr).
  split; [reflexivity|]. split; [reflexivity|]. split; [reflexivity|].
  split; [exact Hev|]. split; [exact Hpool|].
  split; [|split; [exact Hgpu | exact Hr]].
  exists f. split_and!; [exact Hq | exact Hpts | exact Hdts | exact Hside | exact Hdata].
Defined.

(** Under the descriptor table of libavutil the branch is not taken in an
    instance whose last configuration succeeded: [config_props] returns 0
    only on a supported format, and the six supported formats all have the
    RGB flag. *)
Lemma config_props_success_in_fmt k ctx w :
  (config_props k ctx w).1 = 0 ->
  in_fmt (w_priv (config_props k ctx w).2) = hwfc_sw_format ctx /\
  hwfc_sw_format ctx ∈ supported_formats.
Proof.
  unfold config_props. munfold.
  destruct (c_av_hwframe_ctx_alloc k) as [a|], (c_av_buffer_ref k);
    cbv [AVERROR ENOMEM ENOSYS]; mcases.
  all: intros _; split; [reflexivity | by apply format_is_supported_inv].
Qed.

Lemma supported_formats_rgb_flag fmt :
  fmt ∈ supported_formats ->
  Z.land (desc_flags (Sample.pixdesc fmt)) AV_PIX_FMT_FLAG_RGB <> 0.
Proof.
  unfold supported_formats. intros H.
  repeat (apply elem_of_cons in H as [->|H]; [vm_compute; discriminate|]).
  by apply elem_of_nil in H.
Qed.

(** ** Tensor descriptors *)



Lemma filter_frame_keeps_priv desc k ctx in_ :
  keeps w_priv (filter_frame desc k ctx in_).
Proof.
  unfold filter_frame. keeps_walk.
Qed.

Lemma filter_frames_keeps_priv desc ctx frames :
  keeps w_priv (filter_frames desc ctx frames).
Proof.
  induction frames as [|[k in_] rest IH]; simpl.
  - apply keeps_ret.
  - apply keeps_bind; [apply filter_frame_keeps_priv|]. intros r.
    apply keeps_bind; [apply IH|]. intros rs. apply keeps_ret.
Qed.







(** ** Error paths of the per-frame path *)

(** A failed metadata copy frees both frames and is returned. *)
Lemma filter_frame_copy_props_failure desc k ctx in_ w out :
  out <> in_ ->
  f_av_frame_alloc k = Some out ->
  0 <= (f_av_hwframe_get_buffer k).1 ->
  f_av_frame_copy_props k < 0 ->
  let r := (filter_frame desc k ctx in_ w).1 in
  let w' := (filter_frame desc k ctx in_ w).2 in
  r = f_av_frame_copy_props k /\
  w_frames w' !! in_ = None /\
  w_frames w' !! out = None /\
  w_forwarded w' = w_forwarded w.
Proof.
  intros Hne Halloc Hbuf Hcopy.
  unfold filter_frame. munfold. rewrite Halloc.
  branch.
  all: try name_nvcv.
  all: simpl; rewrite ?Hforwarded.
  all: split_and!; try done.
  all: first [ apply lookup_delete_eq
             | rewrite lookup_delete_ne by done; apply lookup_delete_eq ].
Qed.

(** A failed buffer request returns with the context still pushed. *)
Lemma filter_frame_get_buffer_failure desc k ctx in_ w out :
  f_av_frame_alloc k = Some out ->
  f_cuCtxPushCurrent k = CUDA_SUCCESS ->
  (f_av_hwframe_get_buffer k).1 < 0 ->
  let r := (filter_frame desc k ctx in_ w).1 in
  let w' := (filter_frame desc k ctx in_ w).2 in
  r = (f_av_hwframe_get_buffer k).1 /\
  w_cu_stack w' = cuda_ctx (hwfc_hwctx ctx) :: w_cu_stack w /\
  Forall (fun e => is_pop e = false) (new_events w w').
Proof.
  intros Halloc Hpush Hbuf.
  unfold filter_frame. munfold. rewrite Halloc.
  branch.
  simpl. split_and!; try done.
  erewrite new_events_app; [|trace_eq].
  repeat constructor.
Qed.

(** C1 (the code does otherwise).  The construction of the input tensor
    fails with status 2, on both evaluations the macro makes; the failure
    is logged and nothing else: the flip is submitted with the input handle
    never set, the output frame is forwarded instead of being freed, and
    [filter_frame] returns 0, not the error. *)
Theorem filter_frame_wrap_failure_is_dropped :
  let w := Sample.w_configured 0 in
  let run := filter_frame Sample.pixdesc Sample.kf_wrap_fails
               (Sample.in_ctx AV_PIX_FMT_RGB24) 1%nat w in
  new_events w run.2 =
    [ Ev_av_frame_alloc (Some 2%nat);
      Ev_cuCtxPushCurrent 5 0;
      Ev_av_hwframe_get_buffer (Some 10%nat) 2 0;
      Ev_nvcvTensorWrapDataConstruct (nhwc_view Sample.x 3) 2 0;
      Ev_nvcvTensorWrapDataConstruct (nhwc_view Sample.x 3) 2 0;
      Ev_av_log (Log_NVCV_error 2 249);
      Ev_nvcvTensorWrapDataConstruct (nhwc_view Sample.y 3) 0 102;
      Ev_cvcudaFlipSubmit 77 9 57005 102 0 0;
      Ev_cuCtxPopCurrent 0;
      Ev_av_frame_copy_props 2 1 0;
      Ev_av_frame_free (Some 1%nat);
      Ev_ff_filter_frame 2 0 ] /\
  run.1 = 0 /\
  w_forwarded run.2 = [(2%nat, with_props (fr_props Sample.x) Sample.y)] /\
  w_frames run.2 !! 2%nat = Some (with_props (fr_props Sample.x) Sample.y).
Proof. vm_compute. repeat split. Qed.

(** C2 (the code does otherwise).  [filter_frame] pushes the device context
    and leaves through [fail] when the pool has no buffer; [config_props]
    pushes it and returns when the format is unsupported.  Neither pops:
    the context stack is one deeper after the call. *)
Theorem context_left_pushed_on_error :
  (let w := Sample.w_configured 0 in
   let run := filter_frame Sample.pixdesc Sample.kf_no_buffer
                (Sample.in_ctx AV_PIX_FMT_RGB24) 1%nat w in
   run.1 = AVERROR ENOMEM /\
   new_events w run.2 =
     [ Ev_av_frame_alloc (Some 2%nat);
       Ev_cuCtxPushCurrent 5 0;
       Ev_av_hwframe_get_buffer (Some 10%nat) 2 (AVERROR ENOMEM);
       Ev_av_frame_free (Some 1%nat);
       Ev_av_frame_free (Some 2%nat) ] /\
   w_cu_stack w = [7] /\
   w_cu_stack run.2 = [5; 7]) /\
  (let w := Sample.w0 0 in
   let run := config_props Sample.kc_ok (Sample.in_ctx AV_PIX_FMT_YUV420P) w in
   run.1 = AVERROR ENOSYS /\
   new_events w run.2 =
     [ Ev_cuCtxPushCurrent 5 0;
       Ev_av_hwframe_ctx_alloc 3 (Some 10%nat);
       Ev_av_log (Log_unsupported_input AV_PIX_FMT_YUV420P) ] /\
   w_cu_stack w = [7] /\
   w_cu_stack run.2 = [5; 7]).
Proof. vm_compute. repeat split. Qed.

(** ** The operator over the life of an instance *)

Lemma count_none p tr : Forall (fun e => p e = false) tr -> count p tr = 0%nat.
Proof.
  unfold count. induction 1 as [|e tr He _ IH]; simpl; [done|].
  by rewrite He.
Qed.

Lemma filter_frame_appends desc k ctx in_ :
  appends (fun e => is_create e = false /\ is_destroy e = false)
          (filter_frame desc k ctx in_).
Proof. unfold filter_frame. appends_walk. Qed.

Lemma filter_frames_appends desc ctx frames :
  appends (fun e => is_create e = false /\ is_destroy e = false)
          (filter_frames desc ctx frames).
Proof.
  induction frames as [|[k in_] rest IH]; simpl.
  - apply appends_ret.
  - apply appends_bind; [apply filter_frame_appends|]. intros r.
    apply appends_bind; [apply IH|]. intros rs. apply appends_ret.
Qed.

(** Where configuration reaches [cvcudaFlipCreate] and the call succeeds,
    it is made once and its handle is the one the context keeps. *)
Lemma config_props_creates_once k ctx w :
  (config_props k ctx w).1 = 0 ->
  (c_cvcudaFlipCreate k).1 = NVCV_SUCCESS ->
  count is_create (new_events w (config_props k ctx w).2) = 1%nat /\
  flip_handle (w_priv (config_props k ctx w).2) = (c_cvcudaFlipCreate k).2.
Proof.
  unfold config_props. munfold.
  destruct (c_av_hwframe_ctx_alloc k) as [a|], (c_av_buffer_ref k);
    cbv [AVERROR ENOMEM ENOSYS]; mcases.
  all: intros _ _; (erewrite new_events_app; [|trace_eq]); done.
Qed.

Lemma lifecycle_unfold desc kc ctx frames w :
  lifecycle desc kc ctx frames w =
    let cfg := config_props kc ctx w in
    let fr := (if decide (cfg.1 < 0) then mret [] else filter_frames desc ctx frames)
                cfg.2 in
    ((cfg.1, fr.1), (uninit fr.2).2).
Proof.
  unfold lifecycle, mbind, M_bind, mret, M_ret.
  destruct (config_props kc ctx w) as [r w1]. simpl.
  case_decide; simpl.
  - by destruct (uninit w1) as [[] w3].
  - destruct (filter_frames desc ctx frames w1) as [rs w2]. simpl.
    by destruct (uninit w2) as [[] w3].
Qed.

(** C6, as amended.  Over the life of an instance the trace is that of
    configuration, then that of the frames, then one
    [nvcvOperatorDestroy]: teardown destroys the operator once and nothing
    else does; no frame creates or destroys an operator; and when
    configuration gets as far as [cvcudaFlipCreate] and the call succeeds,
    the operator is created once, at configuration, and it is that
    operator teardown destroys. *)
Theorem operator_created_and_destroyed_once desc kc ctx frames w :
  let run := lifecycle desc kc ctx frames w in
  let cfg := config_props kc ctx w in
  exists frame_evs h,
    new_events w run.2 = new_events w cfg.2 ++ frame_evs ++ [Ev_nvcvOperatorDestroy h] /\
    count is_destroy (new_events w run.2) = 1%nat /\
    count is_create frame_evs = 0%nat /\
    count is_destroy frame_evs = 0%nat /\
    (cfg.1 = 0 -> (c_cvcudaFlipCreate kc).1 = NVCV_SUCCESS ->
       count is_create (new_events w cfg.2) = 1%nat /\
       count is_create (new_events w run.2) = 1%nat /\
       h = (c_cvcudaFlipCreate kc).2).
Proof.
  intros run cfg. subst run. rewrite lifecycle_unfold. fold cfg. cbv zeta.
  pose proof (config_props_creates_once kc ctx w) as Hcreate. fold cfg in Hcreate.
  destruct (config_props_appends kc ctx w) as (cfg_evs & Ecfg & Fcfg).
  fold cfg in Ecfg. rewrite (new_events_app _ _ _ Ecfg) in *.
  set (frames_part := if decide (cfg.1 < 0) then mret []
                      else filter_frames desc ctx frames).
  assert (appends (fun e => is_create e = false /\ is_destroy e = false) frames_part)
    as Hfr.
  { subst frames_part. case_decide;
      [apply appends_ret | apply filter_frames_appends]. }
  assert (keeps w_priv frames_part) as Hpriv.
  { subst frames_part. case_decide;
      [apply keeps_ret | apply filter_frames_keeps_priv]. }
  destruct (Hfr cfg.2) as (frame_evs & Efr & Ffr). specialize (Hpriv cfg.2).
  set (w2 := (frames_part cfg.2).2) in *.
  exists frame_evs, (flip_handle (w_priv w2)).
  assert (new_events w (uninit w2).2
          = cfg_evs ++ frame_evs ++ [Ev_nvcvOperatorDestroy (flip_handle (w_priv w2))])
    as Etrace.
  { apply new_events_app. unfold uninit. munfold. simpl.
    rewrite Efr, Ecfg, <- !app_assoc. reflexivity. }
  simpl in Etrace |- *. rewrite Etrace, !count_app.
  assert (count is_create frame_evs = 0%nat) as Hc0.
  { apply count_none. eapply Forall_impl; [exact Ffr|]. by intros e [? ?]. }
  assert (count is_destroy frame_evs = 0%nat) as Hd0.
  { apply count_none. eapply Forall_impl; [exact Ffr|]. by intros e [? ?]. }
  assert (count is_destroy cfg_evs = 0%nat) as Hd1 by (by apply count_none).
  rewrite Hc0, Hd0, Hd1. split_and!; try done.
  intros Hr Hst. destruct (Hcreate Hr Hst) as [Hone Hh].
  rewrite Hone, Hpriv. split_and!; done.
Qed.

Lemma operator_created_and_destroyed_once_witness :
  let run := lifecycle Sample.pixdesc Sample.kc_ok (Sample.in_ctx AV_PIX_FMT_RGB24)
               [(Sample.kf_ok 2 Sample.y, 1%nat); (Sample.kf_ok 4 Sample.z, 2%nat)]
               (Sample.w0 0) in
  (config_props Sample.kc_ok (Sample.in_ctx AV_PIX_FMT_RGB24) (Sample.w0 0)).1 = 0 /\
  (c_cvcudaFlipCreate Sample.kc_ok).1 = NVCV_SUCCESS /\
  count is_create (new_events (Sample.w0 0) run.2) = 1%nat /\
  count is_destroy (new_events (Sample.w0 0) run.2) = 1%nat.
Proof.
  destruct (operator_created_and_destroyed_once Sample.pixdesc Sample.kc_ok
              (Sample.in_ctx AV_PIX_FMT_RGB24)
              [(Sample.kf_ok 2 Sample.y, 1%nat); (Sample.kf_ok 4 Sample.z, 2%nat)]
              (Sample.w0 0)) as (frame_evs & h & _ & Hd & _ & _ & Hc).
  destruct (Hc eq_refl eq_refl) as (_ & Hc1 & _).
  split; [reflexivity|]. split; [reflexivity|]. split; [exact Hc1 | exact Hd].
Defined.

(** C6 as stated fails, in two ways.  On a planar YUV link configuration
    returns [AVERROR(ENOSYS)] before it creates anything, and teardown
    still destroys the handle: no creation, one destruction.  On an RGB
    link where [cvcudaFlipCreate] reports a failure, the macro calls it a
    second time to log the status, configuration returns 0 all the same, a
    frame is processed, and teardown destroys the handle 0 that no call
    set: two creation calls and no operator. *)
Lemma operator_not_created_once :
  (let run := lifecycle Sample.pixdesc Sample.kc_ok
                (Sample.in_ctx AV_PIX_FMT_YUV420P) [(Sample.kf_ok 2 Sample.y, 1%nat)]
                (Sample.w0 0) in
   run.1 = (AVERROR ENOSYS, []) /\
   count is_create (new_events (Sample.w0 0) run.2) = 0%nat /\
   count is_destroy (new_events (Sample.w0 0) run.2) = 1%nat) /\
  (let run := lifecycle Sample.pixdesc Sample.kc_no_operator
                (Sample.in_ctx AV_PIX_FMT_RGB24) [(Sample.kf_ok 2 Sample.y, 1%nat)]
                (Sample.w0 0) in
   run.1 = (0, [0]) /\
   count is_create (new_events (Sample.w0 0) run.2) = 2%nat /\
   List.filter is_create (new_events (Sample.w0 0) run.2)
     = [Ev_cvcudaFlipCreate 1 3 0; Ev_cvcudaFlipCreate 1 3 0] /\
   w_ops run.2 = [] /\
   List.filter is_destroy (new_events (Sample.w0 0) run.2) = [Ev_nvcvOperatorDestroy 0]).
Proof. vm_compute. repeat split. Qed.

(** ** The flip in device memory *)












(** *** The flip as the filter requests it *)







(** * Further properties of the callbacks *)

(** ** [format_is_supported] *)

(** X1.  [format_is_supported] answers 1 for the six formats of
    [supported_formats] and 0 for every other format, and nothing else. *)
Theorem format_is_supported_iff fmt :
  (format_is_supported fmt = 1 <-> fmt ∈ supported_formats) /\
  (format_is_supported fmt = 0 <-> fmt ∉ supported_formats) /\
  (format_is_supported fmt = 0 \/ format_is_supported fmt = 1).
Proof.
  destruct (decide (fmt ∈ supported_formats)) as [Hin|Hnin].
  - pose proof (format_is_supported_1 fmt Hin) as E. rewrite E.
    split_and!; [done | split; [discriminate | done] | by right].
  - pose proof (format_is_supported_0 fmt Hnin) as E. rewrite E.
    split_and!; [split; [discriminate | done] | done | by left].
Qed.

Lemma format_is_supported_iff_witness :
  format_is_supported AV_PIX_FMT_0BGR32 = 1 /\
  AV_PIX_FMT_0BGR32 ∈ supported_formats /\
  format_is_supported AV_PIX_FMT_NV12 = 0 /\
  AV_PIX_FMT_NV12 ∉ supported_formats.
Proof.
  split; [reflexivity|].
  split; [exact (proj1 (proj1 (format_is_supported_iff AV_PIX_FMT_0BGR32)) eq_refl)|].
  split; [reflexivity|].
  exact (proj1 (proj1 (proj2 (format_is_supported_iff AV_PIX_FMT_NV12))) eq_refl).
Defined.

(** ** [config_props] *)

Ltac run_config k :=
  unfold config_props; munfold;
  destruct (c_av_hwframe_ctx_alloc k) as [?a|], (c_av_buffer_ref k);
  cbv [AVERROR ENOMEM ENOSYS]; mcases.

(** X2.  [config_props] returns 0 exactly when the frames context is
    allocated, the format is supported, [av_hwframe_ctx_init] does not fail
    and [av_buffer_ref] gives a reference; it never returns a positive
    value.  The statuses of the CUDA and NVCV calls play no part. *)
Theorem config_props_succeeds_iff k ctx w :
  ((config_props k ctx w).1 = 0 <->
     is_Some (c_av_hwframe_ctx_alloc k) /\
     hwfc_sw_format ctx ∈ supported_formats /\
     0 <= c_av_hwframe_ctx_init k /\
     c_av_buffer_ref k = true) /\
  (config_props k ctx w).1 <= 0.
Proof.
  destruct (decide (hwfc_sw_format ctx ∈ supported_formats)) as [Hin|Hnin].
  - pose proof (format_is_supported_1 _ Hin) as E.
    unfold config_props. munfold.
    destruct (c_av_hwframe_ctx_alloc k) as [a|], (c_av_buffer_ref k);
      cbv [AVERROR ENOMEM ENOSYS]; mcases.
    all: split; [|lia].
    all: split; [intros; try lia; try discriminate | intros (Ha & _ & Hi & Hr)];
      try (split_and!; eauto; lia); try lia; try discriminate;
      try (by destruct Ha).
  - pose proof (format_is_supported_0 _ Hnin) as E.
    unfold config_props. munfold.
    destruct (c_av_hwframe_ctx_alloc k) as [a|];
      cbv [AVERROR ENOMEM ENOSYS]; mcases.
    all: split; [|lia].
    all: split; [discriminate | intros (_ & Hf & _); done].
Qed.

Lemma config_props_succeeds_iff_witness :
  (config_props Sample.kc_no_operator (Sample.in_ctx AV_PIX_FMT_BGR24) (Sample.w0 0)).1 = 0 /\
  (c_cvcudaFlipCreate Sample.kc_no_operator).1 <> NVCV_SUCCESS /\
  is_Some (c_av_hwframe_ctx_alloc Sample.kc_no_operator) /\
  AV_PIX_FMT_BGR24 ∈ supported_formats.
Proof.
  destruct (proj1 (proj1 (config_props_succeeds_iff Sample.kc_no_operator
                            (Sample.in_ctx AV_PIX_FMT_BGR24) (Sample.w0 0))) eq_refl)
    as (Ha & Hf & _).
  split; [reflexivity|]. split; [discriminate|]. split; [exact Ha | exact Hf].
Defined.

(** X3.  When [av_hwframe_ctx_init] fails, [config_props] returns its error
    after releasing the frames context it had allocated (the release is its
    last call); neither [s->hw_frames_ctx] nor the output link is set and
    no operator is created. *)
Theorem config_props_init_failure k ctx w a :
  hwfc_sw_format ctx ∈ supported_formats ->
  c_av_hwframe_ctx_alloc k = Some a ->
  c_av_hwframe_ctx_init k < 0 ->
  let r := (config_props k ctx w).1 in
  let w' := (config_props k ctx w).2 in
  r = c_av_hwframe_ctx_init k /\
  w_hwctx w' !! a = None /\
  last (new_events w w') = Some (Ev_av_buffer_unref a) /\
  hw_frames_ctx (w_priv w') = hw_frames_ctx (w_priv w) /\
  w_outlink_hw_frames_ctx w' = w_outlink_hw_frames_ctx w /\
  w_ops w' = w_ops w /\
  count is_create (new_events w w') = 0%nat.
Proof.
  intros Hfmt Ha Hinit. apply format_is_supported_1 in Hfmt.
  unfold config_props. munfold. rewrite Ha. mcases.
  all: split_and!; try done; try apply lookup_delete_eq.
  all: try (eapply new_events_last; [simpl; reflexivity | trace_prefix]).
  all: erewrite new_events_app; [|trace_eq]; reflexivity.
Qed.

Lemma rgb24_is_supported : AV_PIX_FMT_RGB24 ∈ supported_formats.
Proof. apply list_elem_of_here. Qed.

Lemma config_props_init_failure_witness :
  let run := config_props Sample2.kc_init_fails (Sample.in_ctx AV_PIX_FMT_RGB24)
               (Sample.w0 0) in
  c_av_hwframe_ctx_init Sample2.kc_init_fails < 0 /\
  run.1 = AVERROR ENOMEM /\
  w_hwctx run.2 !! 10%nat = None /\
  last (new_events (Sample.w0 0) run.2) = Some (Ev_av_buffer_unref 10).
Proof.
  destruct (config_props_init_failure Sample2.kc_init_fails
              (Sample.in_ctx AV_PIX_FMT_RGB24) (Sample.w0 0) 10%nat
              rgb24_is_supported eq_refl ltac:(vm_compute; reflexivity))
    as (Hr & Hctx & Hlast & _).
  split; [vm_compute; reflexivity|]. split; [exact Hr|]. split; [exact Hctx | exact Hlast].
Defined.

(** X4.  When the format is unsupported, [config_props] has already
    recorded it in [s->in_fmt] and [s->out_fmt], and it returns without
    releasing the frames context it allocated and filled in: the context
    stays allocated, and neither [s->hw_frames_ctx] nor the output link
    refers to it. *)
Theorem config_props_unsupported_keeps_context k ctx w a :
  hwfc_sw_format ctx ∉ supported_formats ->
  c_av_hwframe_ctx_alloc k = Some a ->
  let w' := (config_props k ctx w).2 in
  w_hwctx w' !! a =
    Some {| hwfc_format := AV_PIX_FMT_CUDA; hwfc_sw_format := hwfc_sw_format ctx;
            hwfc_width := hwfc_width ctx; hwfc_height := hwfc_height ctx;
            hwfc_device_ref := hwfc_device_ref ctx; hwfc_hwctx := hwfc_hwctx ctx |} /\
  count is_unref (new_events w w') = 0%nat /\
  hw_frames_ctx (w_priv w') = hw_frames_ctx (w_priv w) /\
  w_outlink_hw_frames_ctx w' = w_outlink_hw_frames_ctx w /\
  in_fmt (w_priv w') = hwfc_sw_format ctx /\
  out_fmt (w_priv w') = hwfc_sw_format ctx.
Proof.
  intros Hfmt Ha. apply format_is_supported_0 in Hfmt.
  unfold config_props. munfold. rewrite Ha. mcases.
  all: split_and!; try done.
  all: try (rewrite !lookup_alter_eq, lookup_insert_eq; reflexivity).
  all: erewrite new_events_app; [|trace_eq]; reflexivity.
Qed.

Lemma config_props_unsupported_keeps_context_witness :
  let run := config_props Sample.kc_ok (Sample.in_ctx AV_PIX_FMT_YUV420P) (Sample.w0 0) in
  (AV_PIX_FMT_YUV420P ∉ supported_formats) /\
  is_Some (w_hwctx run.2 !! 10%nat) /\
  hw_frames_ctx (w_priv run.2) = None /\
  w_outlink_hw_frames_ctx run.2 = None /\
  in_fmt (w_priv run.2) = AV_PIX_FMT_YUV420P.
Proof.
  destruct (config_props_unsupported_keeps_context Sample.kc_ok
              (Sample.in_ctx AV_PIX_FMT_YUV420P) (Sample.w0 0) 10%nat
              yuv420p_is_unsupported eq_refl)
    as (Hctx & _ & Hs & Ho & Hi & _).
  split; [exact yuv420p_is_unsupported|].
  split; [rewrite Hctx; eauto|]. split; [exact Hs|]. split; [exact Ho | exact Hi].
Defined.

(** X5.  After a successful [config_props], [s->hw_frames_ctx] and the
    output link refer to the same context, the one just allocated, whose
    format is [AV_PIX_FMT_CUDA] and whose device is the input's;
    [s->in_fmt] and [s->out_fmt] are the input's software format,
    [s->frame_w] and [s->frame_h] its size; the flip code is untouched and
    nothing was released. *)
Theorem config_props_success_state k ctx w :
  (config_props k ctx w).1 = 0 ->
  let s' := w_priv (config_props k ctx w).2 in
  let w' := (config_props k ctx w).2 in
  exists a out_ctx,
    c_av_hwframe_ctx_alloc k = Some a /\
    hw_frames_ctx s' = Some a /\
    w_outlink_hw_frames_ctx w' = Some a /\
    w_hwctx w' !! a = Some out_ctx /\
    hwfc_format out_ctx = AV_PIX_FMT_CUDA /\
    hwfc_device_ref out_ctx = hwfc_device_ref ctx /\
    in_fmt s' = hwfc_sw_format ctx /\
    out_fmt s' = hwfc_sw_format ctx /\
    frame_w s' = hwfc_width ctx /\
    frame_h s' = hwfc_height ctx /\
    flip_code s' = flip_code (w_priv w) /\
    count is_unref (new_events w w') = 0%nat.
Proof.
  run_config k.
  all: intros _; exists a,
         {| hwfc_format := AV_PIX_FMT_CUDA; hwfc_sw_format := hwfc_sw_format ctx;
            hwfc_width := hwfc_width ctx; hwfc_height := hwfc_height ctx;
            hwfc_device_ref := hwfc_device_ref ctx; hwfc_hwctx := hwfc_hwctx ctx |}.
  all: split_and!; try reflexivity.
  all: try (rewrite !lookup_alter_eq, lookup_insert_eq; reflexivity).
  all: erewrite new_events_app; [|trace_eq]; reflexivity.
Qed.

Lemma config_props_success_state_witness :
  let run := config_props Sample.kc_ok (Sample.in_ctx AV_PIX_FMT_RGBA) (Sample.w0 (-1)) in
  run.1 = 0 /\
  exists a, hw_frames_ctx (w_priv run.2) = Some a /\
            w_outlink_hw_frames_ctx run.2 = Some a /\
            in_fmt (w_priv run.2) = AV_PIX_FMT_RGBA /\
            flip_code (w_priv run.2) = -1.
Proof.
  destruct (config_props_success_state Sample.kc_ok (Sample.in_ctx AV_PIX_FMT_RGBA)
              (Sample.w0 (-1)) eq_refl)
    as (a & out_ctx & _ & Hs & Ho & _ & _ & _ & Hi & _ & _ & _ & Hc & _).
  split; [reflexivity|]. exists a. split_and!; [exact Hs | exact Ho | exact Hi | exact Hc].
Defined.

(** X6.  When the driver accepts the push and the pop, [config_props]
    leaves the GPU context stack as it found it exactly when it returns 0;
    on every failing return the device context is still on top. *)
Theorem config_props_cu_stack k ctx w :
  c_cuCtxPushCurrent k = CUDA_SUCCESS ->
  c_cuCtxPopCurrent k = CUDA_SUCCESS ->
  let r := (config_props k ctx w).1 in
  w_cu_stack (config_props k ctx w).2 =
    if decide (r = 0) then w_cu_stack w
    else cuda_ctx (hwfc_hwctx ctx) :: w_cu_stack w.
Proof.
  intros Hpush Hpop. run_config k.
Qed.

Lemma config_props_cu_stack_witness :
  w_cu_stack (config_props Sample.kc_ok (Sample.in_ctx AV_PIX_FMT_RGB24) (Sample.w0 0)).2
    = [7] /\
  w_cu_stack (config_props Sample2.kc_init_fails (Sample.in_ctx AV_PIX_FMT_RGB24)
                (Sample.w0 0)).2 = [5; 7].
Proof.
  split.
  - exact (config_props_cu_stack Sample.kc_ok (Sample.in_ctx AV_PIX_FMT_RGB24)
             (Sample.w0 0) eq_refl eq_refl).
  - exact (config_props_cu_stack Sample2.kc_init_fails (Sample.in_ctx AV_PIX_FMT_RGB24)
             (Sample.w0 0) eq_refl eq_refl).
Defined.

(** X7.  A [config_props] that returns 0 has called [cvcudaFlipCreate] once
    if the call succeeded and twice if it failed, the second time as the
    argument of the log line, whose status is the one logged (at line
    177).  The handle kept in the context is that of the first call if it
    succeeded, else that of the second if that one did, else the old
    one. *)
Theorem config_props_create_calls k ctx w :
  (config_props k ctx w).1 = 0 ->
  let w' := (config_props k ctx w).2 in
  let st := (c_cvcudaFlipCreate k).1 in
  let st2 := (c_cvcudaFlipCreate_again k).1 in
  count is_create (new_events w w') = (if decide (st = NVCV_SUCCESS) then 1 else 2)%nat /\
  flip_handle (w_priv w') =
    (if decide (st = NVCV_SUCCESS) then (c_cvcudaFlipCreate k).2
     else if decide (st2 = NVCV_SUCCESS) then (c_cvcudaFlipCreate_again k).2
     else flip_handle (w_priv w)) /\
  (st <> NVCV_SUCCESS -> Ev_av_log (Log_NVCV_error st2 177) ∈ new_events w w').
Proof.
  run_config k.
  all: intros _; split_and!; try done.
  all: try (erewrite new_events_app; [|trace_eq]; reflexivity).
  all: intros _; erewrite new_events_app; [|trace_eq]; in_list.
Qed.

Lemma config_props_create_calls_witness :
  let run := config_props Sample.kc_no_operator (Sample.in_ctx AV_PIX_FMT_RGB24)
               (Sample.w0 0) in
  run.1 = 0 /\
  count is_create (new_events (Sample.w0 0) run.2) = 2%nat /\
  flip_handle (w_priv run.2) = 0 /\
  Ev_av_log (Log_NVCV_error 3 177) ∈ new_events (Sample.w0 0) run.2.
Proof.
  destruct (config_props_create_calls Sample.kc_no_operator
              (Sample.in_ctx AV_PIX_FMT_RGB24) (Sample.w0 0) eq_refl)
    as (Hc & Hh & Hlog).
  split; [reflexivity|]. split; [exact Hc|]. split; [exact Hh|].
  exact (Hlog ltac:(discriminate)).
Defined.

(** ** [filter_frame]: the calls of the NVCV block *)

Lemma nvcv_operation_trace_exact k s stream d1 d2 in_ out w :
  w_trace (nvcv_operation k s stream d1 d2 in_ out w).2 =
    w_trace w ++
    nvcv_events k s stream
      (fill_tensor_data (w_frames w !!! in_) d1 (layout s) cv_data_init)
      (fill_tensor_data (w_frames w !!! out) d2 (layout s) cv_data_init).
Proof.
  unfold nvcv_operation. munfold. branch.
  all: unfold nvcv_events, ck_events, handle_after.
  all: repeat (case_decide; try done; try congruence).
  all: trace_eq.
Qed.

Lemma count_ck_events p line st st2 e e2 :
  p (Ev_av_log (Log_NVCV_error st2 line)) = false ->
  p e = true -> p e2 = true ->
  count p (ck_events line st st2 e e2) = (if decide (st = NVCV_SUCCESS) then 1 else 2)%nat.
Proof.
  intros Hl He He2. unfold ck_events, count. case_decide; simpl; rewrite ?He, ?He2, ?Hl; done.
Qed.

Lemma count_ck_events_0 p line st st2 e e2 :
  p (Ev_av_log (Log_NVCV_error st2 line)) = false ->
  p e = false -> p e2 = false ->
  count p (ck_events line st st2 e e2) = 0%nat.
Proof.
  intros Hl He He2. unfold ck_events, count. case_decide; simpl; rewrite ?He, ?He2, ?Hl; done.
Qed.

Lemma count_not_nvcv p tr :
  (forall e, p e = true -> is_nvcv_call e = true) ->
  Forall (fun e => is_nvcv_call e = false) tr -> count p tr = 0%nat.
Proof.
  intros Hp F. apply count_none. eapply Forall_impl; [exact F|].
  intros e He. simpl in He. destruct (p e) eqn:E; [|done].
  apply Hp in E. congruence.
Qed.

(** The events of a [filter_frame] that reaches the NVCV block: host calls,
    then the block, then host calls. *)
Lemma filter_frame_trace_split desc k ctx in_ w out fin :
  let s := w_priv w in
  let fout := (f_av_hwframe_get_buffer k).2 in
  let din := fill_tensor_data fin (desc (in_fmt s)) (layout s) cv_data_init in
  let dout := fill_tensor_data fout (desc (out_fmt s)) (layout s) cv_data_init in
  let evs := new_events w (filter_frame desc k ctx in_ w).2 in
  Z.land (desc_flags (desc (in_fmt s))) AV_PIX_FMT_FLAG_RGB <> 0 ->
  w_frames w !! in_ = Some fin ->
  out <> in_ ->
  f_av_frame_alloc k = Some out ->
  0 <= (f_av_hwframe_get_buffer k).1 ->
  exists pre post,
    evs = pre ++ nvcv_events k s (cuda_stream (hwfc_hwctx ctx)) din dout ++ post /\
    Forall (fun e => is_nvcv_call e = false) pre /\
    Forall (fun e => is_nvcv_call e = false) post.
Proof.
  intros s fout din dout evs Hrgb Hin Hne Halloc Hbuf.
  subst evs s fout din dout. unfold filter_frame. munfold. rewrite Halloc.
  branch.
  all: match goal with
       | |- context [nvcv_operation ?k ?s ?st ?d1 ?d2 ?i ?o ?w] =>
           pose proof (nvcv_operation_trace_exact k s st d1 d2 i o w) as Ht;
           destruct (nvcv_operation k s st d1 d2 i o w) as [? ?];
           simpl in Ht
       end.
  all: rewrite heap_lookup_out, (heap_lookup_in _ _ _ _ _ fin) in Ht by done.
  all: simpl.
  all: (erewrite new_events_app; [|simpl; rewrite Ht; trace_eq]).
  all: lazymatch goal with
       | |- context [?a :: ?b :: ?c :: ?d :: nvcv_events ?k ?s ?st ?x ?y ++ ?post] =>
           exists [a; b; c; d], post
       | |- context [?a :: ?b :: ?c :: nvcv_events ?k ?s ?st ?x ?y ++ ?post] =>
           exists [a; b; c], post
       end.
  all: split_and!; [reflexivity | repeat constructor..].
Qed.

Lemma count_nvcv_events_submit k s stream din dout :
  count is_submit (nvcv_events k s stream din dout) =
    (if decide (f_cvcudaFlipSubmit k = NVCV_SUCCESS) then 1 else 2)%nat.
Proof.
  unfold nvcv_events. rewrite !count_app.
  rewrite !count_ck_events_0 by done. rewrite count_ck_events by done. lia.
Qed.

Lemma count_nvcv_events_wrap k s stream din dout :
  count is_wrap (nvcv_events k s stream din dout) =
    ((if decide ((f_wrap_in k).1 = NVCV_SUCCESS) then 1 else 2) +
     (if decide ((f_wrap_out k).1 = NVCV_SUCCESS) then 1 else 2))%nat.
Proof.
  unfold nvcv_events. rewrite !count_app.
  rewrite !count_ck_events by done. rewrite count_ck_events_0 by done. lia.
Qed.

Lemma ck_events_first line st st2 e e2 : e ∈ ck_events line st st2 e e2.
Proof. unfold ck_events. case_decide; apply list_elem_of_here. Qed.

(** X8.  On an RGB format, once the output buffer is obtained, the calls of
    [filter_frame] to the operator library are exactly those of the three
    [CK_NVCV] lines, in order and contiguous: for each line the call, and
    if it failed the same call again followed by the log line carrying the
    second status.  The flip is submitted whether or not the constructions
    succeeded, with the operator and flip code of the context, on the
    stream of the device, and with the two handle variables as they are by
    then: the handle a construction stored, or, for a tensor whose
    construction failed twice, the value the uninitialised local held on
    entry. *)
Theorem filter_frame_nvcv_call_sequence desc k ctx in_ w out fin :
  let s := w_priv w in
  let fout := (f_av_hwframe_get_buffer k).2 in
  let din := fill_tensor_data fin (desc (in_fmt s)) (layout s) cv_data_init in
  let dout := fill_tensor_data fout (desc (out_fmt s)) (layout s) cv_data_init in
  let evs := new_events w (filter_frame desc k ctx in_ w).2 in
  Z.land (desc_flags (desc (in_fmt s))) AV_PIX_FMT_FLAG_RGB <> 0 ->
  w_frames w !! in_ = Some fin ->
  out <> in_ ->
  f_av_frame_alloc k = Some out ->
  0 <= (f_av_hwframe_get_buffer k).1 ->
  Ev_cvcudaFlipSubmit (flip_handle s) (cuda_stream (hwfc_hwctx ctx))
    (if decide ((f_wrap_in k).1 = NVCV_SUCCESS) then (f_wrap_in k).2
     else if decide ((f_wrap_in_again k).1 = NVCV_SUCCESS) then (f_wrap_in_again k).2
     else f_cv_in_handle k)
    (if decide ((f_wrap_out k).1 = NVCV_SUCCESS) then (f_wrap_out k).2
     else if decide ((f_wrap_out_again k).1 = NVCV_SUCCESS) then (f_wrap_out_again k).2
     else f_cv_out_handle k)
    (flip_code s) (f_cvcudaFlipSubmit k) ∈ evs /\
  exists pre post,
    evs = pre ++ nvcv_events k s (cuda_stream (hwfc_hwctx ctx)) din dout ++ post /\
    Forall (fun e => is_nvcv_call e = false) pre /\
    Forall (fun e => is_nvcv_call e = false) post.
Proof.
  intros s fout din dout evs Hrgb Hin Hne Halloc Hbuf.
  destruct (filter_frame_trace_split desc k ctx in_ w out fin Hrgb Hin Hne Halloc Hbuf)
    as (pre & post & E & Fpre & Fpost).
  fold s fout din dout evs in E.
  split; [|by exists pre, post].
  rewrite E. apply elem_of_app. right. apply elem_of_app. left.
  unfold nvcv_events. apply elem_of_app. right. apply elem_of_app. right.
  apply ck_events_first.
Qed.

Lemma sample_rgb24_flag :
  Z.land (desc_flags (Sample.pixdesc (in_fmt (w_priv (Sample.w_configured 0)))))
    AV_PIX_FMT_FLAG_RGB <> 0.
Proof. vm_compute. discriminate. Qed.

Lemma filter_frame_nvcv_call_sequence_witness :
  let w := Sample.w_configured 0 in
  let evs := new_events w (filter_frame Sample.pixdesc Sample.kf_wrap_fails
                             (Sample.in_ctx AV_PIX_FMT_RGB24) 1%nat w).2 in
  f_cv_in_handle Sample.kf_wrap_fails = 57005 /\
  Ev_cvcudaFlipSubmit 77 9 57005 102 0 0 ∈ evs /\
  exists pre post,
    evs =
      pre ++
      nvcv_events Sample.kf_wrap_fails (w_priv w) 9
        (fill_tensor_data Sample.x (Sample.pixdesc AV_PIX_FMT_RGB24) (layout (w_priv w))
           cv_data_init)
        (fill_tensor_data Sample.y (Sample.pixdesc AV_PIX_FMT_RGB24) (layout (w_priv w))
           cv_data_init) ++ post /\
    Forall (fun e => is_nvcv_call e = false) pre /\
    Forall (fun e => is_nvcv_call e = false) post.
Proof.
  split; [reflexivity|].
  exact (filter_frame_nvcv_call_sequence Sample.pixdesc Sample.kf_wrap_fails
           (Sample.in_ctx AV_PIX_FMT_RGB24) 1%nat (Sample.w_configured 0) 2%nat Sample.x
           sample_rgb24_flag eq_refl ltac:(lia) eq_refl ltac:(vm_compute; discriminate)).
Defined.

(** X9.  On an RGB format, once the output buffer is obtained,
    [filter_frame] submits the flip once if the submission is accepted and
    twice if it is refused, and constructs each tensor once if the
    construction succeeds and twice if it fails: a failing call is repeated
    by the macro that reports it. *)
Theorem filter_frame_nvcv_call_counts desc k ctx in_ w out fin :
  let evs := new_events w (filter_frame desc k ctx in_ w).2 in
  Z.land (desc_flags (desc (in_fmt (w_priv w)))) AV_PIX_FMT_FLAG_RGB <> 0 ->
  w_frames w !! in_ = Some fin ->
  out <> in_ ->
  f_av_frame_alloc k = Some out ->
  0 <= (f_av_hwframe_get_buffer k).1 ->
  count is_submit evs = (if decide (f_cvcudaFlipSubmit k = NVCV_SUCCESS) then 1 else 2)%nat /\
  count is_wrap evs =
    ((if decide ((f_wrap_in k).1 = NVCV_SUCCESS) then 1 else 2) +
     (if decide ((f_wrap_out k).1 = NVCV_SUCCESS) then 1 else 2))%nat.
Proof.
  intros evs Hrgb Hin Hne Halloc Hbuf.
  destruct (filter_frame_trace_split desc k ctx in_ w out fin Hrgb Hin Hne Halloc Hbuf)
    as (pre & post & E & Fpre & Fpost).
  subst evs. rewrite E, !count_app.
  rewrite count_nvcv_events_submit, count_nvcv_events_wrap.
  rewrite (count_not_nvcv is_submit pre), (count_not_nvcv is_submit post);
    [| by intros [] | done | by intros [] | done].
  rewrite (count_not_nvcv is_wrap pre), (count_not_nvcv is_wrap post);
    [| by intros [] | done | by intros [] | done].
  split; lia.
Qed.

Lemma filter_frame_nvcv_call_counts_witness :
  let w := Sample.w_configured 0 in
  let evs := new_events w (filter_frame Sample.pixdesc Sample2.kf_submit_retried
                             (Sample.in_ctx AV_PIX_FMT_RGB24) 1%nat w).2 in
  count is_submit evs = 2%nat /\ count is_wrap evs = 2%nat.
Proof.
  exact (filter_frame_nvcv_call_counts Sample.pixdesc Sample2.kf_submit_retried
           (Sample.in_ctx AV_PIX_FMT_RGB24) 1%nat (Sample.w_configured 0) 2%nat Sample.x
           sample_rgb24_flag eq_refl ltac:(lia) eq_refl ltac:(vm_compute; discriminate)).
Defined.

(** ** [filter_frame]: failures *)

(** X10.  When [av_frame_alloc] returns NULL, [filter_frame] returns
    [AVERROR(ENOMEM)] having made no other call than the two
    [av_frame_free] of the [fail] label, the second on the NULL pointer:
    the input frame is freed, the GPU context is not pushed, nothing is
    forwarded and device memory is untouched. *)
Theorem filter_frame_alloc_failure desc k ctx in_ w :
  f_av_frame_alloc k = None ->
  let r := (filter_frame desc k ctx in_ w).1 in
  let w' := (filter_frame desc k ctx in_ w).2 in
  r = AVERROR ENOMEM /\
  new_events w w' =
    [Ev_av_frame_alloc None; Ev_av_frame_free (Some in_); Ev_av_frame_free None] /\
  w_frames w' = delete in_ (w_frames w) /\
  w_cu_stack w' = w_cu_stack w /\
  w_forwarded w' = w_forwarded w /\
  w_gpu w' = w_gpu w.
Proof.
  intros Halloc. unfold filter_frame. munfold. rewrite Halloc. simpl.
  split_and!; try done. erewrite new_events_app; [|trace_eq]. reflexivity.
Qed.

Lemma filter_frame_alloc_failure_witness :
  let w := Sample.w_configured 0 in
  let run := filter_frame Sample.pixdesc Sample2.kf_no_frame
               (Sample.in_ctx AV_PIX_FMT_RGB24) 1%nat w in
  run.1 = AVERROR ENOMEM /\
  new_events w run.2 =
    [Ev_av_frame_alloc None; Ev_av_frame_free (Some 1%nat); Ev_av_frame_free None] /\
  w_cu_stack run.2 = w_cu_stack w.
Proof.
  destruct (filter_frame_alloc_failure Sample.pixdesc Sample2.kf_no_frame
              (Sample.in_ctx AV_PIX_FMT_RGB24) 1%nat (Sample.w_configured 0) eq_refl)
    as (Hr & Hevs & _ & Hstack & _).
  split; [exact Hr|]. split; [exact Hevs | exact Hstack].
Defined.

(** X11.  When [av_hwframe_get_buffer] fails, [filter_frame] returns its
    error without any call to the operator library and without popping the
    GPU context: device memory and the tensor table are untouched, nothing
    is forwarded, and the last call frees the output frame. *)
Theorem filter_frame_buffer_failure_skips_gpu desc k ctx in_ w out :
  f_av_frame_alloc k = Some out ->
  (f_av_hwframe_get_buffer k).1 < 0 ->
  let r := (filter_frame desc k ctx in_ w).1 in
  let w' := (filter_frame desc k ctx in_ w).2 in
  r = (f_av_hwframe_get_buffer k).1 /\
  Forall (fun e => is_nvcv_call e = false) (new_events w w') /\
  count is_pop (new_events w w') = 0%nat /\
  last (new_events w w') = Some (Ev_av_frame_free (Some out)) /\
  w_gpu w' = w_gpu w /\
  w_tensors w' = w_tensors w /\
  w_forwarded w' = w_forwarded w.
Proof.
  intros Halloc Hbuf.
  unfold filter_frame. munfold. rewrite Halloc.
  branch.
  all: simpl; split_and!; try done.
  all: erewrite new_events_app; [|trace_eq].
  all: first [reflexivity | repeat constructor].
Qed.

Lemma filter_frame_buffer_failure_skips_gpu_witness :
  let w := Sample.w_configured 0 in
  let run := filter_frame Sample.pixdesc Sample.kf_no_buffer
               (Sample.in_ctx AV_PIX_FMT_RGB24) 1%nat w in
  run.1 = AVERROR ENOMEM /\
  count is_pop (new_events w run.2) = 0%nat /\
  w_gpu run.2 = w_gpu w.
Proof.
  destruct (filter_frame_buffer_failure_skips_gpu Sample.pixdesc Sample.kf_no_buffer
              (Sample.in_ctx AV_PIX_FMT_RGB24) 1%nat (Sample.w_configured 0) 2%nat
              eq_refl ltac:(vm_compute; reflexivity))
    as (Hr & _ & Hpop & _ & Hgpu & _).
  split; [exact Hr|]. split; [exact Hpop | exact Hgpu].
Defined.

(** X12.  When [av_frame_copy_props] fails on an RGB format, the flip has
    already been submitted and the GPU context popped: [filter_frame]
    returns the error, frees both frames and forwards nothing, but the
    calls to the operator library are not undone. *)
Theorem filter_frame_copy_failure_after_flip desc k ctx in_ w out fin :
  Z.land (desc_flags (desc (in_fmt (w_priv w)))) AV_PIX_FMT_FLAG_RGB <> 0 ->
  w_frames w !! in_ = Some fin ->
  out <> in_ ->
  f_av_frame_alloc k = Some out ->
  0 <= (f_av_hwframe_get_buffer k).1 ->
  f_av_frame_copy_props k < 0 ->
  let r := (filter_frame desc k ctx in_ w).1 in
  let w' := (filter_frame desc k ctx in_ w).2 in
  r = f_av_frame_copy_props k /\
  (1 <= count is_submit (new_events w w'))%nat /\
  w_frames w' !! in_ = None /\
  w_frames w' !! out = None /\
  w_forwarded w' = w_forwarded w /\
  last (new_events w w') = Some (Ev_av_frame_free (Some out)).
Proof.
  intros Hrgb Hin Hne Halloc Hbuf Hcopy r w'.
  destruct (filter_frame_copy_props_failure desc k ctx in_ w out Hne Halloc Hbuf Hcopy)
    as (Hr & Hfin & Hfout & Hfw).
  destruct (filter_frame_trace_split desc k ctx in_ w out fin Hrgb Hin Hne Halloc Hbuf)
    as (pre & post & E & _ & _).
  split_and!; try done.
  - subst w'. rewrite E, !count_app, count_nvcv_events_submit. case_decide; lia.
  - subst w'. clear E. unfold filter_frame. munfold. rewrite Halloc.
    branch.
    all: try name_nvcv.
    all: simpl.
    all: eapply new_events_last; [reflexivity|]; simpl; rewrite ?Htrace; trace_prefix.
Qed.

Lemma filter_frame_copy_failure_after_flip_witness :
  let w := Sample.w_configured 0 in
  let run := filter_frame Sample.pixdesc Sample2.kf_copy_fails
               (Sample.in_ctx AV_PIX_FMT_RGB24) 1%nat w in
  run.1 = AVERROR ENOMEM /\
  (1 <= count is_submit (new_events w run.2))%nat /\
  w_forwarded run.2 = [].
Proof.
  destruct (filter_frame_copy_failure_after_flip Sample.pixdesc Sample2.kf_copy_fails
              (Sample.in_ctx AV_PIX_FMT_RGB24) 1%nat (Sample.w_configured 0) 2%nat Sample.x
              sample_rgb24_flag eq_refl ltac:(lia) eq_refl
              ltac:(vm_compute; discriminate) ltac:(vm_compute; reflexivity))
    as (Hr & Hsub & _ & _ & Hfw & _).
  split; [exact Hr|]. split; [exact Hsub | exact Hfw].
Defined.

(** ** [filter_frame]: frames, GPU context and configuration *)

Lemma heap_after_fail (m : gmap nat AVFrame) in_ out a :
  m !! out = None ->
  delete out (delete in_ (<[out:=a]> m)) = delete in_ m.
Proof.
  intros Hout. apply map_eq. intros i.
  destruct (decide (i = out)) as [->|Hio].
  - rewrite lookup_delete_eq. destruct (decide (out = in_)) as [->|Hne].
    + by rewrite lookup_delete_eq.
    + by rewrite lookup_delete_ne.
  - rewrite lookup_delete_ne by done.
    destruct (decide (i = in_)) as [->|Hii].
    + by rewrite !lookup_delete_eq.
    + by rewrite !lookup_delete_ne, lookup_insert_ne.
Qed.

Lemma heap_after_forward (m : gmap nat AVFrame) in_ out b f :
  out <> in_ ->
  delete in_ (alter f out (<[out:=b]> m))
  = <[out:=delete in_ (alter f out (<[out:=b]> m)) !!! out]> (delete in_ m).
Proof.
  intros Hne. apply map_eq. intros i.
  destruct (decide (i = out)) as [->|Hio].
  - rewrite lookup_insert_eq, lookup_total_alt.
    by rewrite lookup_delete_ne, lookup_alter_eq, !lookup_insert_eq.
  - rewrite lookup_insert_ne by done.
    destruct (decide (i = in_)) as [->|Hii].
    + by rewrite !lookup_delete_eq.
    + by rewrite !lookup_delete_ne, lookup_alter_ne, !lookup_insert_ne.
Qed.

(** X13.  [filter_frame] always consumes its input frame and never leaks
    the output frame it allocates: either one of the host calls failed,
    the result is negative, nothing is forwarded and the frame table is
    the old one without the input; or the result is that of
    [ff_filter_frame], exactly one frame was forwarded, and the frame
    table is the old one without the input and with that frame. *)
Theorem filter_frame_frames_accounted desc k ctx in_ w out :
  f_av_frame_alloc k = Some out ->
  w_frames w !! out = None ->
  out <> in_ ->
  let r := (filter_frame desc k ctx in_ w).1 in
  let w' := (filter_frame desc k ctx in_ w).2 in
  (frame_ok k = false /\ r < 0 /\
   w_forwarded w' = w_forwarded w /\
   w_frames w' = delete in_ (w_frames w)) \/
  (frame_ok k = true /\ r = f_ff_filter_frame k /\
   exists f, w_forwarded w' = w_forwarded w ++ [(out, f)] /\
             w_frames w' = <[out:=f]> (delete in_ (w_frames w))).
Proof.
  intros Halloc Hfresh Hne.
  assert (forall b, frame_ok k = b <->
            (if b then 0 <= (f_av_hwframe_get_buffer k).1 /\ 0 <= f_av_frame_copy_props k
             else ~ (0 <= (f_av_hwframe_get_buffer k).1 /\ 0 <= f_av_frame_copy_props k)))
    as Hok.
  { intros b. unfold frame_ok. rewrite Halloc. destruct b.
    - rewrite bool_decide_eq_true. split; [tauto | intros []; eauto].
    - rewrite bool_decide_eq_false. split; [intros Hn ?; apply Hn; intuition eauto | tauto]. }
  unfold filter_frame. munfold. rewrite Halloc.
  branch.
  all: try name_nvcv.
  all: simpl; rewrite ?Hforwarded, ?Hframes, ?insert_insert_eq.
  all: first
    [ left; split_and!;
        [ apply Hok; lia | done | done | apply heap_after_fail; done ]
    | right; split_and!; [apply Hok; lia | done |];
        eexists; split; [reflexivity|];
        apply heap_after_forward; done ].
Qed.

Lemma filter_frame_frames_accounted_witness :
  let w := Sample.w_configured 0 in
  let run := filter_frame Sample.pixdesc Sample2.kf_copy_fails
               (Sample.in_ctx AV_PIX_FMT_RGB24) 1%nat w in
  let run' := filter_frame Sample.pixdesc (Sample.kf_ok 2 Sample.y)
               (Sample.in_ctx AV_PIX_FMT_RGB24) 1%nat w in
  (run.1 < 0 /\ w_frames run.2 = delete 1%nat (w_frames w)) /\
  (exists f, w_frames run'.2 = <[2%nat:=f]> (delete 1%nat (w_frames w))).
Proof.
  split.
  - destruct (filter_frame_frames_accounted Sample.pixdesc Sample2.kf_copy_fails
                (Sample.in_ctx AV_PIX_FMT_RGB24) 1%nat (Sample.w_configured 0) 2%nat
                eq_refl eq_refl ltac:(lia))
      as [(_ & Hr & _ & Hfr) | (Hok & _)]; [|discriminate Hok].
    split; [exact Hr | exact Hfr].
  - destruct (filter_frame_frames_accounted Sample.pixdesc (Sample.kf_ok 2 Sample.y)
                (Sample.in_ctx AV_PIX_FMT_RGB24) 1%nat (Sample.w_configured 0) 2%nat
                eq_refl eq_refl ltac:(lia))
      as [(Hok & _) | (_ & _ & f & _ & Hfr)]; [discriminate Hok|].
    exists f. exact Hfr.
Defined.

(** X14.  The GPU context stack after [filter_frame], whatever the driver
    answers.  If the push succeeded, the device context is popped again
    unless [av_hwframe_get_buffer] failed or the pop itself failed.  If
    the push failed, [filter_frame] goes on all the same, and its pop
    then removes a context the caller had made current. *)
Theorem filter_frame_cu_stack desc k ctx in_ w out :
  f_av_frame_alloc k = Some out ->
  let s := w_cu_stack w in
  let s' := w_cu_stack (filter_frame desc k ctx in_ w).2 in
  let c := cuda_ctx (hwfc_hwctx ctx) in
  (f_cuCtxPushCurrent k = CUDA_SUCCESS ->
     s' = if decide ((f_av_hwframe_get_buffer k).1 < 0) then c :: s
          else if decide (f_cuCtxPopCurrent k = CUDA_SUCCESS) then s else c :: s) /\
  (f_cuCtxPushCurrent k <> CUDA_SUCCESS ->
     s' = if decide ((f_av_hwframe_get_buffer k).1 < 0) then s
          else if decide (f_cuCtxPopCurrent k = CUDA_SUCCESS) then tail s else s).
Proof.
  intros Halloc. unfold filter_frame. munfold. rewrite Halloc.
  branch.
  all: try name_nvcv.
  all: simpl; rewrite ?Hstack; split; intros; try done; try congruence.
Qed.

Lemma filter_frame_cu_stack_witness :
  let w := Sample.w_configured 0 in
  w_cu_stack w = [7] /\
  w_cu_stack (filter_frame Sample.pixdesc Sample2.kf_push_fails
                (Sample.in_ctx AV_PIX_FMT_RGB24) 1%nat w).2 = [] /\
  w_cu_stack (filter_frame Sample.pixdesc (Sample.kf_ok 2 Sample.y)
                (Sample.in_ctx AV_PIX_FMT_RGB24) 1%nat w).2 = [7].
Proof.
  split; [reflexivity|]. split.
  - exact (proj2 (filter_frame_cu_stack Sample.pixdesc Sample2.kf_push_fails
                    (Sample.in_ctx AV_PIX_FMT_RGB24) 1%nat (Sample.w_configured 0) 2%nat
                    eq_refl) ltac:(vm_compute; discriminate)).
  - exact (proj1 (filter_frame_cu_stack Sample.pixdesc (Sample.kf_ok 2 Sample.y)
                    (Sample.in_ctx AV_PIX_FMT_RGB24) 1%nat (Sample.w_configured 0) 2%nat
                    eq_refl) eq_refl).
Defined.

(** X15.  [filter_frame] only reads what [config_props] set up: the
    private context (sizes, formats, operator handle, layout, flip code),
    the frames contexts, the table of live operators and the output
    link's frames context are the same after the call, on every path. *)
Theorem filter_frame_keeps_configuration desc k ctx in_ w :
  let w' := (filter_frame desc k ctx in_ w).2 in
  w_priv w' = w_priv w /\
  w_hwctx w' = w_hwctx w /\
  w_ops w' = w_ops w /\
  w_outlink_hw_frames_ctx w' = w_outlink_hw_frames_ctx w.
Proof.
  split_and!.
  - apply filter_frame_keeps_priv.
  - revert w. change (keeps w_hwctx (filter_frame desc k ctx in_)).
    unfold filter_frame. keeps_walk.
  - revert w. change (keeps w_ops (filter_frame desc k ctx in_)).
    unfold filter_frame. keeps_walk.
  - revert w. change (keeps w_outlink_hw_frames_ctx (filter_frame desc k ctx in_)).
    unfold filter_frame. keeps_walk.
Qed.

(** ** A stream of frames *)

Lemma filter_frame_forwards_one desc k ctx in_ w :
  length (w_forwarded (filter_frame desc k ctx in_ w).2) =
    (length (w_forwarded w) + if frame_ok k then 1 else 0)%nat.
Proof.
  unfold frame_ok. destruct (bool_decide _) eqn:Hok.
  - apply bool_decide_eq_true_1 in Hok as ([out Halloc] & Hbuf & Hcopy).
    unfold filter_frame. munfold. rewrite Halloc. branch.
    all: try name_nvcv.
    all: simpl; rewrite ?Hforwarded, ?length_app; simpl; lia.
  - apply bool_decide_eq_false_1 in Hok.
    unfold filter_frame. munfold.
    destruct (f_av_frame_alloc k) as [out|]; [|simpl; lia].
    branch.
    all: try name_nvcv.
    all: simpl; rewrite ?Hforwarded, ?length_app; simpl; try lia.
    all: exfalso; apply Hok; split_and!; [eauto | lia | lia].
Qed.

(** X16.  Over a stream of frames, a failure on one frame does not stop
    or alter the treatment of the next ones: the result of each call is
    decided by the host calls of that frame alone, the number of frames
    forwarded downstream is the number of frames whose allocation, buffer
    and metadata copy all succeeded, and the private context is the same
    at the end. *)
Theorem filter_frames_results desc ctx frames w :
  let run := filter_frames desc ctx frames w in
  run.1 = map (fun p => host_result p.1) frames /\
  length (w_forwarded run.2) =
    (length (w_forwarded w) + length (List.filter (fun p => frame_ok p.1) frames))%nat /\
  w_priv run.2 = w_priv w.
Proof.
  revert w. induction frames as [|[k in_] rest IH]; intros w; simpl.
  - split_and!; [done | lia | done].
  - unfold mbind, M_bind, mret, M_ret.
    pose proof (filter_frame_result desc k ctx in_ w) as Hr.
    pose proof (filter_frame_forwards_one desc k ctx in_ w) as Hq.
    pose proof (filter_frame_keeps_priv desc k ctx in_ w) as Hp.
    destruct (filter_frame desc k ctx in_ w) as [r w1]. simpl in *.
    destruct (IH w1) as (IH1 & IH2 & IH3).
    destruct (filter_frames desc ctx rest w1) as [rs w2]. simpl in *.
    split_and!.
    + by rewrite Hr, IH1.
    + rewrite IH2, Hq. destruct (frame_ok k); simpl; lia.
    + by rewrite IH3.
Qed.

(** ** What is never released *)

Lemma filter_frame_no_unref desc k ctx in_ :
  appends (fun e => is_unref e = false) (filter_frame desc k ctx in_).
Proof. unfold filter_frame. appends_walk. Qed.

Lemma filter_frames_no_unref desc ctx frames :
  appends (fun e => is_unref e = false) (filter_frames desc ctx frames).
Proof.
  induction frames as [|[k in_] rest IH]; simpl.
  - apply appends_ret.
  - apply appends_bind; [apply filter_frame_no_unref|]. intros r.
    apply appends_bind; [apply IH|]. intros rs. apply appends_ret.
Qed.

Lemma filter_frame_keeps_hwctx desc k ctx in_ :
  keeps w_hwctx (filter_frame desc k ctx in_).
Proof. unfold filter_frame. keeps_walk. Qed.

Lemma filter_frames_keeps_hwctx desc ctx frames :
  keeps w_hwctx (filter_frames desc ctx frames).
Proof.
  induction frames as [|[k in_] rest IH]; simpl.
  - apply keeps_ret.
  - apply keeps_bind; [apply filter_frame_keeps_hwctx|]. intros r.
    apply keeps_bind; [apply IH|]. intros rs. apply keeps_ret.
Qed.

Lemma config_props_success_no_unref k ctx w :
  (config_props k ctx w).1 = 0 ->
  Forall (fun e => is_unref e = false) (new_events w (config_props k ctx w).2) /\
  exists a, c_av_hwframe_ctx_alloc k = Some a /\
            is_Some (w_hwctx (config_props k ctx w).2 !! a) /\
            hw_frames_ctx (w_priv (config_props k ctx w).2) = Some a.
Proof.
  run_config k.
  all: intros _; split; [erewrite new_events_app; [|trace_eq]; repeat constructor|].
  all: exists a; split_and!; try done.
  all: rewrite !lookup_alter_eq, lookup_insert_eq; simpl; eauto.
Qed.

(** X17.  Over the life of an instance ([config_props] succeeding, any
    number of frames, [uninit]) the frames context that [config_props]
    allocated and stored in [s->hw_frames_ctx] is never released: no
    callback calls [av_buffer_unref], and after [uninit] the context is
    still allocated and still referenced by the private context. *)
Theorem lifecycle_never_releases_frames_context desc kc ctx frames w :
  (config_props kc ctx w).1 = 0 ->
  let run := lifecycle desc kc ctx frames w in
  count is_unref (new_events w run.2) = 0%nat /\
  exists a, c_av_hwframe_ctx_alloc kc = Some a /\
            hw_frames_ctx (w_priv run.2) = Some a /\
            is_Some (w_hwctx run.2 !! a).
Proof.
  intros Hcfg run. subst run. rewrite lifecycle_unfold. cbv zeta.
  destruct (config_props_success_no_unref kc ctx w Hcfg) as (Fcfg & a & Ha & Hctx & Hpriv).
  destruct (config_props_appends kc ctx w) as (cfg_evs & Ecfg & _).
  rewrite (new_events_app _ _ _ Ecfg) in Fcfg.
  set (cfg := config_props kc ctx w) in *.
  rewrite decide_False by lia.
  destruct (filter_frames_no_unref desc ctx frames cfg.2) as (frame_evs & Efr & Ffr).
  pose proof (filter_frames_keeps_hwctx desc ctx frames cfg.2) as Hh.
  pose proof (filter_frames_keeps_priv desc ctx frames cfg.2) as Hp.
  set (w2 := (filter_frames desc ctx frames cfg.2).2) in *.
  assert (new_events w (uninit w2).2
          = cfg_evs ++ frame_evs ++ [Ev_nvcvOperatorDestroy (flip_handle (w_priv w2))])
    as Etrace.
  { apply new_events_app. unfold uninit. munfold. simpl.
    rewrite Efr, Ecfg, <- !app_assoc. reflexivity. }
  split.
  - simpl in Etrace |- *. rewrite Etrace, !count_app.
    rewrite (count_none is_unref cfg_evs), (count_none is_unref frame_evs) by done.
    reflexivity.
  - exists a. unfold uninit. munfold. simpl. rewrite Hh, Hp. done.
Qed.

Lemma lifecycle_never_releases_frames_context_witness :
  let w := Sample.w0 0 in
  let run := lifecycle Sample.pixdesc Sample.kc_ok (Sample.in_ctx AV_PIX_FMT_RGB24)
               [(Sample.kf_ok 2 Sample.y, 1%nat)] w in
  count is_unref (new_events w run.2) = 0%nat /\
  exists a, hw_frames_ctx (w_priv run.2) = Some a /\ is_Some (w_hwctx run.2 !! a).
Proof.
  destruct (lifecycle_never_releases_frames_context Sample.pixdesc Sample.kc_ok
              (Sample.in_ctx AV_PIX_FMT_RGB24) [(Sample.kf_ok 2 Sample.y, 1%nat)]
              (Sample.w0 0) eq_refl)
    as (Hc & a & _ & Hp & Hctx).
  split; [exact Hc|]. exists a. split; [exact Hp | exact Hctx].
Defined.

Lemma config_props_success_ops k ctx w :
  (config_props k ctx w).1 = 0 ->
  (c_cvcudaFlipCreate k).1 = NVCV_SUCCESS ->
  let w' := (config_props k ctx w).2 in
  w_ops w' = (c_cvcudaFlipCreate k).2 :: w_ops w /\
  flip_handle (w_priv w') = (c_cvcudaFlipCreate k).2 /\
  (forall a b, c_av_hwframe_ctx_alloc k = Some a -> b <> a ->
               w_hwctx w' !! b = w_hwctx w !! b).
Proof.
  run_config k.
  all: intros _ _; split_and!; try done.
  all: intros a' b [= <-] Hb.
  all: by rewrite !lookup_alter_ne, lookup_insert_ne.
Qed.

(** X18.  [config_props] does not release what an earlier call set up.
    When the link is configured twice and the instance is then torn down,
    [uninit] destroys the second operator only: the first operator is
    still live, and the first frames context is still allocated although
    the private context now refers to the second. *)
Theorem reconfiguration_keeps_first_resources k1 k2 ctx1 ctx2 w a1 a2 :
  let c1 := config_props k1 ctx1 w in
  let c2 := config_props k2 ctx2 c1.2 in
  let w3 := (uninit c2.2).2 in
  c1.1 = 0 -> c2.1 = 0 ->
  (c_cvcudaFlipCreate k1).1 = NVCV_SUCCESS ->
  (c_cvcudaFlipCreate k2).1 = NVCV_SUCCESS ->
  (c_cvcudaFlipCreate k1).2 <> (c_cvcudaFlipCreate k2).2 ->
  c_av_hwframe_ctx_alloc k1 = Some a1 ->
  c_av_hwframe_ctx_alloc k2 = Some a2 ->
  a1 <> a2 ->
  (c_cvcudaFlipCreate k1).2 ∈ w_ops w3 /\
  last (w_trace w3) = Some (Ev_nvcvOperatorDestroy (c_cvcudaFlipCreate k2).2) /\
  is_Some (w_hwctx w3 !! a1) /\
  hw_frames_ctx (w_priv w3) = Some a2.
Proof.
  intros c1 c2 w3 H1 H2 Hs1 Hs2 Hne Ha1 Ha2 Hane.
  destruct (config_props_success_ops k1 ctx1 w H1 Hs1) as (Hops1 & _ & _).
  destruct (config_props_success_no_unref k1 ctx1 w H1) as (_ & a & Ha & Hctx1 & _).
  rewrite Ha1 in Ha. injection Ha as <-.
  fold c1 in Hops1, Hctx1.
  destruct (config_props_success_ops k2 ctx2 c1.2 H2 Hs2) as (Hops2 & Hh2 & Hother).
  destruct (config_props_success_no_unref k2 ctx2 c1.2 H2) as (_ & a & Ha & _ & Hp2).
  rewrite Ha2 in Ha. injection Ha as <-.
  fold c2 in Hops2, Hh2, Hother, Hp2.
  subst w3. unfold uninit. munfold. simpl. rewrite Hh2, Hops2, Hops1.
  split_and!.
  - rewrite filter_cons_False by (intros ?; done).
    rewrite filter_cons_True by done. apply list_elem_of_here.
  - apply last_snoc.
  - rewrite (Hother a2 a1 Ha2 Hane). exact Hctx1.
  - exact Hp2.
Qed.

Lemma reconfiguration_keeps_first_resources_witness :
  let c1 := config_props Sample.kc_ok (Sample.in_ctx AV_PIX_FMT_RGB24) (Sample.w0 0) in
  let c2 := config_props Sample2.kc_again (Sample.in_ctx AV_PIX_FMT_RGB24) c1.2 in
  let w3 := (uninit c2.2).2 in
  77 ∈ w_ops w3 /\
  last (w_trace w3) = Some (Ev_nvcvOperatorDestroy 88) /\
  is_Some (w_hwctx w3 !! 10%nat) /\
  hw_frames_ctx (w_priv w3) = Some 11%nat.
Proof.
  exact (reconfiguration_keeps_first_resources Sample.kc_ok Sample2.kc_again
           (Sample.in_ctx AV_PIX_FMT_RGB24) (Sample.in_ctx AV_PIX_FMT_RGB24) (Sample.w0 0)
           10%nat 11%nat eq_refl eq_refl eq_refl eq_refl
           ltac:(vm_compute; discriminate) eq_refl eq_refl ltac:(lia)).
Defined.

(** ** Driver errors *)

Lemma filter_cuda_log_nvcv evs :
  Forall (fun e => is_nvcv_call e = true) evs -> List.filter is_cuda_log evs = [].
Proof.
  induction 1 as [|e evs He _ IH]; simpl; [done|].
  rewrite IH. by destruct e as [[]| | | | | | | | | | | | | | | |].
Qed.

(** X19.  [filter_frame] reports a driver error and goes on: the push of
    line 219 and the pop of line 255 each leave one log line, with the
    status and the line, exactly when the call fails (the pop is not
    reached when [av_hwframe_get_buffer] fails); no other driver error
    is ever logged, and the value [check_cu] returns is dropped, so the
    result is the one the host calls give. *)
Theorem filter_frame_cuda_errors desc k ctx in_ w out :
  f_av_frame_alloc k = Some out ->
  let run := filter_frame desc k ctx in_ w in
  List.filter is_cuda_log (new_events w run.2) =
    cu_report 219 (f_cuCtxPushCurrent k) ++
    (if decide ((f_av_hwframe_get_buffer k).1 < 0) then []
     else cu_report 255 (f_cuCtxPopCurrent k)) /\
  run.1 = host_result k.
Proof.
  intros Halloc run. split; [|apply filter_frame_result].
  subst run. unfold filter_frame, cu_report. munfold. rewrite Halloc.
  branch.
  all: try name_nvcv.
  all: (erewrite new_events_app; [|simpl; rewrite ?Htrace; trace_eq]).
  all: simpl; rewrite ?List.filter_app, ?filter_cuda_log_nvcv by done.
  all: reflexivity.
Qed.

Lemma filter_frame_cuda_errors_witness :
  let w := Sample.w_configured 0 in
  let run := filter_frame Sample.pixdesc Sample2.kf_push_fails
               (Sample.in_ctx AV_PIX_FMT_RGB24) 1%nat w in
  List.filter is_cuda_log (new_events w run.2) = [Ev_av_log (Log_CUDA_error 201 219)] /\
  run.1 = 0.
Proof.
  exact (filter_frame_cuda_errors Sample.pixdesc Sample2.kf_push_fails
           (Sample.in_ctx AV_PIX_FMT_RGB24) 1%nat (Sample.w_configured 0) 2%nat eq_refl).
Defined.

(** X20.  [config_props] reports a driver error and goes on: the push of
    line 135 leaves one log line exactly when it fails, and so does the
    pop of line 175, which is reached exactly on the returns with 0; no
    other driver error is logged. *)
Theorem config_props_cuda_errors k ctx w :
  let run := config_props k ctx w in
  List.filter is_cuda_log (new_events w run.2) =
    cu_report 135 (c_cuCtxPushCurrent k) ++
    (if decide (run.1 = 0) then cu_report 175 (c_cuCtxPopCurrent k) else []).
Proof.
  unfold cu_report. run_config k.
  all: (erewrite new_events_app; [|trace_eq]); reflexivity.
Qed.
